(** * Certificate generator front end: the workflow handlers of [App.tsx]

    A shallow embedding of the event handlers of the [App] component
    (frontend/src/App.tsx): [uploadFiles], [generateCertificates],
    [sendEmails], [handleStartProcess], [downloadCertificates] and
    [checkBackendConnection], together with the component state they act
    on and the requests they issue through axios.

    The handlers are asynchronous closures that call React state setters,
    axios, the console and the DOM, and that signal failure with [throw].
    They are embedded in an error monad over a state monad: the state is
    the [World] (component state, backend, and a chronological log of every
    observable effect), the error is the thrown JavaScript value.  State
    changes made before a [throw] are kept, as in JavaScript.

    Each handler is run to completion from a given world; the interleaving
    of two handlers at their [await] points is not part of this model. *)

From Stdlib Require Import String List Bool ZArith Lia DecimalString.
From ExtLib Require Import Structures.Monad Structures.MonadState
  Structures.MonadExc Data.Monads.StateMonad Data.Monads.EitherMonad.
Import ListNotations.
Import MonadNotation.
Local Open Scope string_scope.
Local Open Scope list_scope.
Local Open Scope monad_scope.

Set Implicit Arguments.

(* ===================================================================== *)
(** ** Data model *)
(* ===================================================================== *)

(** A browser [File] handle, as picked by an [<input type="file">]. *)
Record File : Type := mkFile { file_name : string; file_bytes : string }.

(** [interface FormData] (App.tsx, lines 10-23).  [File | null] and
    [number | null] are options.  The handlers only copy the numeric
    fields into a request, so a [number] is carried as an integer. *)
Module FormData.
Record t : Type := mk {
  participants : option File;
  template : option File;
  emailBody : string;
  x : option Z;
  y : option Z;
  fontsize : Z;
  color : string;
  outline : bool;
  dpi : Z;
  senderEmail : string;
  senderPassword : string;
  customSubject : string
}.

(** The initial value given to [useState<FormData>] (lines 33-46). *)
Definition initial : t :=
  mk None None "" None None 90 "#000000" false 600 "" "" "".
End FormData.

(** [interface Status] (lines 25-28): [type] is one of the three tags or
    [null]. *)
Inductive StatusType : Type := success | error | loading.

Module Status.
Record t : Type := mk { type : option StatusType; message : string }.

(** [useState<Status>({ type: null, message: "" })] (line 48). *)
Definition initial : t := mk None "".
End Status.

(** The object literals [{ type: "loading", message: m }] and so on. *)
Definition Loading (m : string) : Status.t := Status.mk (Some loading) m.
Definition Success (m : string) : Status.t := Status.mk (Some success) m.
Definition Error (m : string) : Status.t := Status.mk (Some error) m.

(** The three [useState] cells of the component (lines 33-49). *)
Module App.
Record state : Type := mk {
  formData : FormData.t;
  status : Status.t;
  isProcessing : bool
}.

Definition initial : state := mk FormData.initial Status.initial false.
End App.

(* ===================================================================== *)
(** ** Requests, responses and thrown values *)
(* ===================================================================== *)

Inductive Method : Type := GET | POST.

(** An entry of the multipart form built by [new FormData()] and
    [append]. *)
Inductive FormValue : Type :=
| FileEntry (f : File)
| TextEntry (s : string).

(** [generateData] (lines 86-93). *)
Module GenerateData.
Record t : Type := mk {
  x : option Z;
  y : option Z;
  fontsize : Z;
  color : string;
  outline : bool;
  dpi : Z
}.
End GenerateData.

(** [emailData] (lines 108-113). *)
Module EmailData.
Record t : Type := mk {
  senderEmail : string;
  senderPassword : string;
  customSubject : string;
  dryRun : bool
}.
End EmailData.

Inductive Body : Type :=
| NoBody
| Multipart (entries : list (string * FormValue))
| GenerateJson (d : GenerateData.t)
| EmailJson (d : EmailData.t).

Inductive ResponseType : Type := DefaultResponse | BlobResponse.

Record Request : Type := mkRequest {
  method : Method;
  url : string;
  body : Body;
  responseType : ResponseType
}.

(** What axios resolves with: the HTTP status code and [response.data]. *)
Record Response : Type := mkResponse { code : nat; data : string }.

(** What the network does with a request: an HTTP response comes back, or
    none does (connection refused, timeout, ...). *)
Inductive NetResult : Type :=
| Replied (r : Response)
| NoReply.

(** A value thrown in JavaScript: an instance of [Error] with its
    [message], or any other value. *)
Inductive Thrown : Type :=
| ErrorInstance (message : string)
| OtherValue (v : string).

(** [error instanceof Error]. *)
Definition instanceof_Error (e : Thrown) : bool :=
  match e with
  | ErrorInstance _ => true
  | OtherValue _ => false
  end.

(** [error.message], read only under [error instanceof Error]. *)
Definition error_message (e : Thrown) : string :=
  match e with
  | ErrorInstance m => m
  | OtherValue _ => ""
  end.

(* ===================================================================== *)
(** ** The world and its log of effects *)
(* ===================================================================== *)

(** An anchor element created by [document.createElement("a")]. *)
Record Link : Type := mkLink { href : string; download : string }.

(** Everything a handler does that can be observed from outside, in the
    order in which it happens. *)
Inductive Event : Type :=
| SetFormData (f : FormData.t)
| SetStatus (s : Status.t)
| SetIsProcessing (b : bool)
| AxiosCall (r : Request)
| ConsoleLog (label : string) (payload : string)
| ConsoleError (label : string) (e : Thrown)
| CreateObjectURL (blob : string)
| AppendChild (l : Link)
| Click (l : Link)
| Remove (l : Link)
| RevokeObjectURL (u : string).

(** The backend: its answer to a request may depend on the requests it
    has already received (the endpoints keep the uploaded files and the
    generated certificates). *)
Definition Backend : Type := list Request -> Request -> NetResult.

Record World : Type := mkWorld {
  VITE_API_BASE_URL : option string;
  server : Backend;
  app : App.state;
  log : list Event
}.

(** The requests issued so far, oldest first. *)
Fixpoint requests_of (l : list Event) : list Request :=
  match l with
  | [] => []
  | AxiosCall r :: l' => r :: requests_of l'
  | _ :: l' => requests_of l'
  end.

Definition calls (w : World) : list Request := requests_of (log w).

(** The statuses passed to [setStatus] so far, oldest first. *)
Fixpoint statuses_of (l : list Event) : list Status.t :=
  match l with
  | [] => []
  | SetStatus s :: l' => s :: statuses_of l'
  | _ :: l' => statuses_of l'
  end.

Definition emit (e : Event) (w : World) : World :=
  mkWorld (VITE_API_BASE_URL w) (server w) (app w) (log w ++ [e]).

Definition with_app (a : App.state) (w : World) : World :=
  mkWorld (VITE_API_BASE_URL w) (server w) a (log w).

(** A world in which nothing has happened yet. *)
Definition boot (base : option string) (srv : Backend) (a : App.state) : World :=
  mkWorld base srv a [].

(* ===================================================================== *)
(** ** The monad of handlers *)
(* ===================================================================== *)

Definition M : Type -> Type := eitherT Thrown (state World).

(** Run a handler from a world: its completion (a thrown value or a
    result) and the world it leaves. *)
Definition run {A : Type} (m : M A) (w : World) : (Thrown + A) * World :=
  runState (unEitherT m) w.

Definition outcome {A : Type} (m : M A) (w : World) : Thrown + A := fst (run m w).
Definition after {A : Type} (m : M A) (w : World) : World := snd (run m w).

(** [try { body } finally { fin }]: [fin] runs whatever [body] did; a
    throw of [fin] wins, otherwise the completion of [body] stands. *)
Definition try_finally {A : Type} (body : M A) (fin : M unit) : M A :=
  mkEitherT (
    r <- unEitherT body ;;
    f <- unEitherT fin ;;
    ret (match f with
         | inl e => inl e
         | inr _ => r
         end)).

(** [try { body } catch (e) { handler } finally { fin }]. *)
Definition try_catch_finally {A : Type}
    (body : M A) (handler : Thrown -> M A) (fin : M unit) : M A :=
  try_finally (catch body handler) fin.

(** *** React state setters *)

Definition setFormData (f : FormData.t -> FormData.t) : M unit :=
  w <- get ;;
  let fd := f (App.formData (app w)) in
  put (emit (SetFormData fd)
         (with_app (App.mk fd (App.status (app w)) (App.isProcessing (app w))) w)).

Definition setStatus (s : Status.t) : M unit :=
  w <- get ;;
  put (emit (SetStatus s)
         (with_app (App.mk (App.formData (app w)) s (App.isProcessing (app w))) w)).

Definition setIsProcessing (b : bool) : M unit :=
  w <- get ;;
  put (emit (SetIsProcessing b)
         (with_app (App.mk (App.formData (app w)) (App.status (app w)) b) w)).

(** *** The platform: module constant, axios, console, DOM *)

(** [const API_BASE = import.meta.env.VITE_API_BASE_URL ||
    "http://localhost:5000"] (line 30); [||] also replaces the empty
    string. *)
Definition API_BASE (w : World) : string :=
  match VITE_API_BASE_URL w with
  | Some EmptyString | None => "http://localhost:5000"
  | Some u => u
  end.

(** axios's default [validateStatus]: the promise resolves for a 2xx
    status code and rejects otherwise. *)
Definition validateStatus (c : nat) : bool :=
  (200 <=? c)%nat && (c <? 300)%nat.

(** axios's [settle]: an HTTP response resolves the promise when its
    status is valid and rejects it with an [AxiosError] otherwise; a
    request without response rejects it too.  [AxiosError] extends
    [Error]. *)
Definition settle (res : NetResult) : Thrown + Response :=
  match res with
  | Replied resp =>
      if validateStatus (code resp) then inr resp
      else inl (ErrorInstance
                  ("Request failed with status code "
                     ++ NilEmpty.string_of_uint (Nat.to_uint (code resp)))%string)
  | NoReply => inl (ErrorInstance "Network Error")
  end.

(** [await axios(r)]: the request is issued, then the promise settles. *)
Definition axios (r : Request) : M Response :=
  w <- get ;;
  put (emit (AxiosCall r) w) ;;
  match settle (server w (calls w) r) with
  | inl e => raise e
  | inr resp => ret resp
  end.

Definition axios_post (u : string) (b : Body) : M Response :=
  axios (mkRequest POST u b DefaultResponse).

Definition axios_get (u : string) (rt : ResponseType) : M Response :=
  axios (mkRequest GET u NoBody rt).

Definition effect (e : Event) : M unit :=
  w <- get ;; put (emit e w).

Definition console_log (label payload : string) : M unit :=
  effect (ConsoleLog label payload).

Definition console_error (label : string) (e : Thrown) : M unit :=
  effect (ConsoleError label e).

(** [window.URL.createObjectURL(new Blob([data]))]: the handle is named
    after the blob it stands for. *)
Definition createObjectURL (blob : string) : M string :=
  effect (CreateObjectURL blob) ;; ret ("blob:" ++ blob)%string.

(** JavaScript truthiness of a [File | null] and of a string. *)
Definition truthy_file (f : option File) : bool :=
  match f with Some _ => true | None => false end.

Definition truthy_string (s : string) : bool :=
  match s with EmptyString => false | String _ _ => true end.

(* ===================================================================== *)
(** ** The handlers of one render *)
(* ===================================================================== *)

(** The handlers are closures created by one render of [App]: they all
    read the [formData] of that render. *)
Section Render.

Variable formData : FormData.t.

(** [uploadFiles] (lines 62-83). *)
Definition uploadFiles : M bool :=
  match FormData.participants formData, FormData.template formData with
  | Some participants, Some template =>
      let uploadFormData :=
        [ ("participants", FileEntry participants);
          ("template", FileEntry template);
          ("emailBody", TextEntry (FormData.emailBody formData)) ] in
      base <- gets API_BASE ;;
      catch
        (_ <- axios_post (base ++ "/upload-files") (Multipart uploadFormData) ;;
         ret true)
        (fun _ => raise (ErrorInstance "Failed to upload files"))
  | _, _ =>
      setStatus
        (Error "Please select both participants CSV and template image files.") ;;
      ret false
  end.

(** [generateCertificates] (lines 85-101). *)
Definition generateCertificates : M bool :=
  let generateData :=
    GenerateData.mk (FormData.x formData) (FormData.y formData)
      (FormData.fontsize formData) (FormData.color formData)
      (FormData.outline formData) (FormData.dpi formData) in
  base <- gets API_BASE ;;
  catch
    (_ <- axios_post (base ++ "/generate-certificates") (GenerateJson generateData) ;;
     ret true)
    (fun _ => raise (ErrorInstance "Failed to generate certificates")).

(** [sendEmails] (lines 103-121). *)
Definition sendEmails : M bool :=
  if negb (truthy_string (FormData.senderEmail formData)) then
    raise (ErrorInstance "Sender email is required")
  else
    let emailData :=
      EmailData.mk (FormData.senderEmail formData)
        (FormData.senderPassword formData)
        (FormData.customSubject formData) false in
    base <- gets API_BASE ;;
    catch
      (_ <- axios_post (base ++ "/send-emails") (EmailJson emailData) ;;
       ret true)
      (fun _ => raise (ErrorInstance "Failed to send emails")).

(** The [try] block of [handleStartProcess] (lines 128-140). *)
Definition handleStartProcess_try : M unit :=
  setStatus (Loading "Uploading files...") ;;
  _ <- uploadFiles ;;
  setStatus (Loading "Generating certificates...") ;;
  _ <- generateCertificates ;;
  setStatus (Loading "Sending emails...") ;;
  _ <- sendEmails ;;
  setStatus (Success "All operations completed successfully!").

(** Its [catch] clause (lines 141-145). *)
Definition handleStartProcess_catch (err : Thrown) : M unit :=
  setStatus
    (Error (if instanceof_Error err then error_message err
            else "An error occurred")).

(** [handleStartProcess] (lines 123-149). *)
Definition handleStartProcess : M unit :=
  setIsProcessing true ;;
  setStatus (Loading "Starting process...") ;;
  try_catch_finally
    handleStartProcess_try
    handleStartProcess_catch
    (setIsProcessing false).

End Render.

(** [handleFileChange] (lines 51-56): the form writes a file field. *)
Inductive FileField : Type := participants_field | template_field.

Definition handleFileChange (field : FileField) (file : option File) : M unit :=
  setFormData (fun prev =>
    match field with
    | participants_field =>
        FormData.mk file (FormData.template prev) (FormData.emailBody prev)
          (FormData.x prev) (FormData.y prev) (FormData.fontsize prev)
          (FormData.color prev) (FormData.outline prev) (FormData.dpi prev)
          (FormData.senderEmail prev) (FormData.senderPassword prev)
          (FormData.customSubject prev)
    | template_field =>
        FormData.mk (FormData.participants prev) file (FormData.emailBody prev)
          (FormData.x prev) (FormData.y prev) (FormData.fontsize prev)
          (FormData.color prev) (FormData.outline prev) (FormData.dpi prev)
          (FormData.senderEmail prev) (FormData.senderPassword prev)
          (FormData.customSubject prev)
    end).

(** [downloadCertificates] (lines 151-168). *)
Definition downloadCertificates : M unit :=
  catch
    (base <- gets API_BASE ;;
     response <- axios_get (base ++ "/download-certificates") BlobResponse ;;
     u <- createObjectURL (data response) ;;
     let link := mkLink u "certificates.zip" in
     effect (AppendChild link) ;;
     effect (Click link) ;;
     effect (Remove link) ;;
     effect (RevokeObjectURL u))
    (fun _ => setStatus (Error "Failed to download certificates")).

(** [checkBackendConnection] (lines 171-178), called once by the mount
    effect (line 180). *)
Definition checkBackendConnection : M unit :=
  catch
    (base <- gets API_BASE ;;
     response <- axios_get (base ++ "/health") DefaultResponse ;;
     console_log "Backend connected:" (data response))
    (fun err => console_error "Backend connection failed:" err).

(** The [disabled] attribute of the two buttons (lines 471-476, 485). *)
Definition start_disabled (a : App.state) : bool :=
  App.isProcessing a
  || negb (truthy_file (FormData.participants (App.formData a)))
  || negb (truthy_file (FormData.template (App.formData a)))
  || negb (truthy_string (FormData.senderEmail (App.formData a))).

Definition download_disabled (a : App.state) : bool := App.isProcessing a.

(** Clicking the start button runs the handler of the current render
    unless the button is disabled. *)
Definition click_start : M unit :=
  w <- get ;;
  if start_disabled (app w) then ret tt
  else handleStartProcess (App.formData (app w)).

(* ===================================================================== *)
(** ** Vocabulary of the statements *)
(* ===================================================================== *)

(** Does the call succeed: does the backend answer request [r], received
    after the requests [past], with a 2xx response? *)
Definition accepted (srv : Backend) (past : list Request) (r : Request) : bool :=
  match settle (srv past r) with
  | inr _ => true
  | inl _ => false
  end.

(** Does the call fail: no response comes back, or the status of the
    response is not 2xx? *)
Definition call_fails (srv : Backend) (past : list Request) (r : Request) : Prop :=
  srv past r = NoReply \/
  exists resp, srv past r = Replied resp /\ ~ (200 <= code resp < 300)%nat.

(** The three requests of the workflow, as the handlers build them. *)
Definition upload_request (base : string) (p t : File) (emailBody : string) : Request :=
  mkRequest POST (base ++ "/upload-files")
    (Multipart [ ("participants", FileEntry p);
                 ("template", FileEntry t);
                 ("emailBody", TextEntry emailBody) ])
    DefaultResponse.

Definition generate_request (base : string) (fd : FormData.t) : Request :=
  mkRequest POST (base ++ "/generate-certificates")
    (GenerateJson
       (GenerateData.mk (FormData.x fd) (FormData.y fd) (FormData.fontsize fd)
          (FormData.color fd) (FormData.outline fd) (FormData.dpi fd)))
    DefaultResponse.

Definition send_request (base : string) (fd : FormData.t) : Request :=
  mkRequest POST (base ++ "/send-emails")
    (EmailJson
       (EmailData.mk (FormData.senderEmail fd) (FormData.senderPassword fd)
          (FormData.customSubject fd) false))
    DefaultResponse.

Definition download_request (base : string) : Request :=
  mkRequest GET (base ++ "/download-certificates") NoBody BlobResponse.

Definition health_request (base : string) : Request :=
  mkRequest GET (base ++ "/health") NoBody DefaultResponse.

(** Both files are selected. *)
Definition files_present (fd : FormData.t) : bool :=
  truthy_file (FormData.participants fd) && truthy_file (FormData.template fd).

(** The message of the local file validation of [uploadFiles]. *)
Definition validation_message : string :=
  "Please select both participants CSV and template image files.".

(** The world reached from [w] when the component state has become [a]
    and the events [d] have been added to the log. *)
Definition evolve (w : World) (a : App.state) (d : list Event) : World :=
  mkWorld (VITE_API_BASE_URL w) (server w) a (log w ++ d).

(** The events a handler adds to the log, and the requests among them. *)
Definition events {A : Type} (m : M A) (w : World) : list Event :=
  skipn (length (log w)) (log (after m w)).

Definition issued {A : Type} (m : M A) (w : World) : list Request :=
  requests_of (events m w).

(** How many of the requests [rs] go to the endpoint at [u]. *)
Definition count_calls (u : string) (rs : list Request) : nat :=
  length (filter (fun r => String.eqb (url r) u) rs).

Definition set_status (s : Status.t) (a : App.state) : App.state :=
  App.mk (App.formData a) s (App.isProcessing a).

Definition set_busy (b : bool) (a : App.state) : App.state :=
  App.mk (App.formData a) (App.status a) b.

(** The component state a run of [handleStartProcess] from [w] leaves:
    the form as it was, the last status, the busy flag cleared. *)
Definition settled (w : World) (s : Status.t) : App.state :=
  App.mk (App.formData (app w)) s false.

(** What every run without both files starts with. *)
Definition missing_prefix (fd : FormData.t) (w : World) : list Event :=
  [ SetIsProcessing true;
    SetStatus (Loading "Starting process...");
    SetStatus (Loading "Uploading files...");
    SetStatus (Error validation_message);
    SetStatus (Loading "Generating certificates...");
    AxiosCall (generate_request (API_BASE w) fd) ].

(** The world [w] with the busy flag forced to [b]. *)
Definition with_busy (b : bool) (w : World) : World :=
  with_app (set_busy b (app w)) w.

(** The URL of an endpoint in world [w]. *)
Definition endpoint (w : World) (path : string) : string :=
  (API_BASE w ++ path)%string.

(** The staged check of the sender address: the run has called the
    upload and the generate endpoints, has not called the send endpoint,
    and ends with the error of the missing sender. *)
Definition sender_check_reached (fd : FormData.t) (w : World) : Prop :=
  let rs := issued (handleStartProcess fd) w in
  count_calls (endpoint w "/upload-files") rs = 1 /\
  count_calls (endpoint w "/generate-certificates") rs = 1 /\
  count_calls (endpoint w "/send-emails") rs = 0 /\
  App.status (app (after (handleStartProcess fd) w)) =
    Error "Sender email is required".

(* ===================================================================== *)
(** ** Frame predicates *)
(* ===================================================================== *)

(** An event that is not a write of the form. *)
Definition quiet (e : Event) : Prop :=
  match e with
  | SetFormData _ => False
  | _ => True
  end.

(** An event of a stage: a status update or a request. *)
Definition stage_event (e : Event) : Prop :=
  match e with
  | SetStatus _ | AxiosCall _ => True
  | _ => False
  end.

(** [confined P m]: from every world, [m] leaves the environment alone,
    only adds events that satisfy [P] to the log, and leaves the form cell
    as it found it. *)
Definition confined {A : Type} (P : Event -> Prop) (m : M A) : Prop :=
  forall w : World,
    exists a d,
      after m w = evolve w a d /\
      App.formData a = App.formData (app w) /\
      Forall P d.

(** [never_throws m]: [m] completes normally from every world. *)
Definition never_throws {A : Type} (m : M A) : Prop :=
  forall w : World, exists x : A, outcome m w = inr x.

(* ===================================================================== *)
(** ** Sample inputs *)
(* ===================================================================== *)

Definition roster : File := mkFile "participants.csv" "name,email".
Definition artwork : File := mkFile "template.png" "PNG".

(** A complete form. *)
Definition form_complete : FormData.t :=
  FormData.mk (Some roster) (Some artwork) "Dear {name}" None None 90 "#000000"
    false 600 "sender@example.com" "secret" "Your certificate".

(** Both files, no sender address. *)
Definition form_no_sender : FormData.t :=
  FormData.mk (Some roster) (Some artwork) "Dear {name}" None None 90 "#000000"
    false 600 "" "" "".

(** A sender address, no file. *)
Definition form_no_files : FormData.t :=
  FormData.mk None None "" None None 90 "#000000" false 600
    "sender@example.com" "secret" "".

(** A backend that answers every request with 200. *)
Definition backend_ok : Backend := fun _ _ => Replied (mkResponse 200 "ok").

(** A backend that cannot be reached. *)
Definition backend_offline : Backend := fun _ _ => NoReply.

(** A backend that answers 500 to every request. *)
Definition backend_broken : Backend := fun _ _ => Replied (mkResponse 500 "").

(** A backend that serves two requests and answers 500 from then on. *)
Definition backend_two_then_broken : Backend :=
  fun past _ =>
    if (length past <? 2)%nat then Replied (mkResponse 200 "ok")
    else Replied (mkResponse 500 "").

(** The component showing form [fd], before anything has happened. *)
Definition fresh (srv : Backend) (fd : FormData.t) : World :=
  boot None srv (App.mk fd Status.initial false).

(* ===================================================================== *)
(** ** The form handlers and the buttons *)
(* ===================================================================== *)

(** [keyof FormData], with the declared type of each key and the two
    object operations the handlers use on a form: reading a key and the
    spread [{ ...prev, [field]: value }]. *)
Module Key.
Inductive t : Type :=
| participants | template | emailBody | x | y | fontsize | color | outline
| dpi | senderEmail | senderPassword | customSubject.

Definition value (k : t) : Type :=
  match k with
  | participants | template => option File
  | x | y => option Z
  | fontsize | dpi => Z
  | outline => bool
  | emailBody | color | senderEmail | senderPassword | customSubject => string
  end.

(** [prev[field]]. *)
Definition read (k : t) : FormData.t -> value k :=
  match k with
  | participants => FormData.participants
  | template => FormData.template
  | emailBody => FormData.emailBody
  | x => FormData.x
  | y => FormData.y
  | fontsize => FormData.fontsize
  | color => FormData.color
  | outline => FormData.outline
  | dpi => FormData.dpi
  | senderEmail => FormData.senderEmail
  | senderPassword => FormData.senderPassword
  | customSubject => FormData.customSubject
  end.

(** [{ ...prev, [field]: value }]. *)
Definition assign (k : t) : value k -> FormData.t -> FormData.t :=
  match k with
  | participants => fun v prev =>
      FormData.mk v (FormData.template prev) (FormData.emailBody prev)
        (FormData.x prev) (FormData.y prev) (FormData.fontsize prev)
        (FormData.color prev) (FormData.outline prev) (FormData.dpi prev)
        (FormData.senderEmail prev) (FormData.senderPassword prev)
        (FormData.customSubject prev)
  | template => fun v prev =>
      FormData.mk (FormData.participants prev) v (FormData.emailBody prev)
        (FormData.x prev) (FormData.y prev) (FormData.fontsize prev)
        (FormData.color prev) (FormData.outline prev) (FormData.dpi prev)
        (FormData.senderEmail prev) (FormData.senderPassword prev)
        (FormData.customSubject prev)
  | emailBody => fun v prev =>
      FormData.mk (FormData.participants prev) (FormData.template prev) v
        (FormData.x prev) (FormData.y prev) (FormData.fontsize prev)
        (FormData.color prev) (FormData.outline prev) (FormData.dpi prev)
        (FormData.senderEmail prev) (FormData.senderPassword prev)
        (FormData.customSubject prev)
  | x => fun v prev =>
      FormData.mk (FormData.participants prev) (FormData.template prev)
        (FormData.emailBody prev) v (FormData.y prev) (FormData.fontsize prev)
        (FormData.color prev) (FormData.outline prev) (FormData.dpi prev)
        (FormData.senderEmail prev) (FormData.senderPassword prev)
        (FormData.customSubject prev)
  | y => fun v prev =>
      FormData.mk (FormData.participants prev) (FormData.template prev)
        (FormData.emailBody prev) (FormData.x prev) v (FormData.fontsize prev)
        (FormData.color prev) (FormData.outline prev) (FormData.dpi prev)
        (FormData.senderEmail prev) (FormData.senderPassword prev)
        (FormData.customSubject prev)
  | fontsize => fun v prev =>
      FormData.mk (FormData.participants prev) (FormData.template prev)
        (FormData.emailBody prev) (FormData.x prev) (FormData.y prev) v
        (FormData.color prev) (FormData.outline prev) (FormData.dpi prev)
        (FormData.senderEmail prev) (FormData.senderPassword prev)
        (FormData.customSubject prev)
  | color => fun v prev =>
      FormData.mk (FormData.participants prev) (FormData.template prev)
        (FormData.emailBody prev) (FormData.x prev) (FormData.y prev)
        (FormData.fontsize prev) v (FormData.outline prev) (FormData.dpi prev)
        (FormData.senderEmail prev) (FormData.senderPassword prev)
        (FormData.customSubject prev)
  | outline => fun v prev =>
      FormData.mk (FormData.participants prev) (FormData.template prev)
        (FormData.emailBody prev) (FormData.x prev) (FormData.y prev)
        (FormData.fontsize prev) (FormData.color prev) v (FormData.dpi prev)
        (FormData.senderEmail prev) (FormData.senderPassword prev)
        (FormData.customSubject prev)
  | dpi => fun v prev =>
      FormData.mk (FormData.participants prev) (FormData.template prev)
        (FormData.emailBody prev) (FormData.x prev) (FormData.y prev)
        (FormData.fontsize prev) (FormData.color prev) (FormData.outline prev) v
        (FormData.senderEmail prev) (FormData.senderPassword prev)
        (FormData.customSubject prev)
  | senderEmail => fun v prev =>
      FormData.mk (FormData.participants prev) (FormData.template prev)
        (FormData.emailBody prev) (FormData.x prev) (FormData.y prev)
        (FormData.fontsize prev) (FormData.color prev) (FormData.outline prev)
        (FormData.dpi prev) v (FormData.senderPassword prev)
        (FormData.customSubject prev)
  | senderPassword => fun v prev =>
      FormData.mk (FormData.participants prev) (FormData.template prev)
        (FormData.emailBody prev) (FormData.x prev) (FormData.y prev)
        (FormData.fontsize prev) (FormData.color prev) (FormData.outline prev)
        (FormData.dpi prev) (FormData.senderEmail prev) v
        (FormData.customSubject prev)
  | customSubject => fun v prev =>
      FormData.mk (FormData.participants prev) (FormData.template prev)
        (FormData.emailBody prev) (FormData.x prev) (FormData.y prev)
        (FormData.fontsize prev) (FormData.color prev) (FormData.outline prev)
        (FormData.dpi prev) (FormData.senderEmail prev)
        (FormData.senderPassword prev) v
  end.
End Key.

(** [handleInputChange] (lines 58-60).  The parameter [value: any] is
    taken at the declared type of the field, which is what every caller in
    the component passes. *)
Definition handleInputChange (field : Key.t) (value : Key.value field) : M unit :=
  setFormData (fun prev => Key.assign field value prev).

(** Clicking the download button (lines 484-485). *)
Definition click_download : M unit :=
  w <- get ;;
  if download_disabled (app w) then ret tt
  else downloadCertificates.

(** The stage that reads a key of the form. *)
Inductive Stage : Type := Upload | Generate | Send.

Definition stage_of_key (k : Key.t) : Stage :=
  match k with
  | Key.participants | Key.template | Key.emailBody => Upload
  | Key.x | Key.y | Key.fontsize | Key.color | Key.outline | Key.dpi => Generate
  | Key.senderEmail | Key.senderPassword | Key.customSubject => Send
  end.

Definition stage_handler (st : Stage) (fd : FormData.t) : M bool :=
  match st with
  | Upload => uploadFiles fd
  | Generate => generateCertificates fd
  | Send => sendEmails fd
  end.

(** The operator selects the two files, types the sender address and
    clicks the start button. *)
Definition fill_and_start (p t : File) (email : string) : M unit :=
  handleFileChange participants_field (Some p) ;;
  handleFileChange template_field (Some t) ;;
  handleInputChange Key.senderEmail email ;;
  click_start.

(** The form after these three edits. *)
Definition filled (p t : File) (email : string) (fd : FormData.t) : FormData.t :=
  Key.assign Key.senderEmail email
    (Key.assign Key.template (Some t)
       (Key.assign Key.participants (Some p) fd)).

Definition set_form (fd : FormData.t) (a : App.state) : App.state :=
  App.mk fd (App.status a) (App.isProcessing a).

(** The statuses a run of [handleStartProcess] can end with. *)
Definition final_statuses : list Status.t :=
  [ Success "All operations completed successfully!";
    Error "Failed to upload files";
    Error "Failed to generate certificates";
    Error "Sender email is required";
    Error "Failed to send emails" ].

(** A backend that serves one request and answers 500 from then on. *)
Definition backend_one_then_broken : Backend :=
  fun past _ =>
    if (length past <? 1)%nat then Replied (mkResponse 200 "ok")
    else Replied (mkResponse 500 "").

(* ===================================================================== *)
(** ** Equations of the monad and of the primitives *)
(* ===================================================================== *)

Lemma requests_of_app (l1 l2 : list Event) :
  requests_of (l1 ++ l2) = requests_of l1 ++ requests_of l2.
Proof.
  induction l1 as [|e l1 IH]; [reflexivity|].
  destruct e; cbn; rewrite IH; reflexivity.
Qed.

Lemma statuses_of_app (l1 l2 : list Event) :
  statuses_of (l1 ++ l2) = statuses_of l1 ++ statuses_of l2.
Proof.
  induction l1 as [|e l1 IH]; [reflexivity|].
  destruct e; cbn; rewrite IH; reflexivity.
Qed.

Lemma evolve_nil (w : World) : evolve w (app w) [] = w.
Proof. destruct w; unfold evolve; cbn. rewrite app_nil_r. reflexivity. Qed.

Lemma evolve_evolve (w : World) a d a' d' :
  evolve (evolve w a d) a' d' = evolve w a' (d ++ d').
Proof. unfold evolve; cbn. rewrite app_assoc. reflexivity. Qed.

Lemma calls_evolve (w : World) a d :
  calls (evolve w a d) = calls w ++ requests_of d.
Proof. unfold calls, evolve; cbn. apply requests_of_app. Qed.

Lemma run_ret {A : Type} (a : A) (w : World) : run (ret a) w = (inr a, w).
Proof. reflexivity. Qed.

Lemma run_raise {A : Type} (e : Thrown) (w : World) :
  run (raise e : M A) w = (inl e, w).
Proof. reflexivity. Qed.

Lemma run_bind {A B : Type} (m : M A) (k : A -> M B) (w : World) :
  run (bind m k) w =
  match run m w with
  | (inl e, w') => (inl e, w')
  | (inr a, w') => run (k a) w'
  end.
Proof.
  unfold run; cbn. destruct (runState (unEitherT m) w) as [[e|a] w']; reflexivity.
Qed.

Lemma run_catch {A : Type} (m : M A) (h : Thrown -> M A) (w : World) :
  run (catch m h) w =
  match run m w with
  | (inl e, w') => run (h e) w'
  | (inr a, w') => (inr a, w')
  end.
Proof.
  unfold run; cbn. destruct (runState (unEitherT m) w) as [[e|a] w']; reflexivity.
Qed.

Lemma run_try_finally {A : Type} (m : M A) (fin : M unit) (w : World) :
  run (try_finally m fin) w =
  match run m w with
  | (r, w') =>
      match run fin w' with
      | (inl e, w'') => (inl e, w'')
      | (inr _, w'') => (r, w'')
      end
  end.
Proof.
  unfold run, try_finally; cbn.
  destruct (runState (unEitherT m) w) as [r w'].
  destruct (runState (unEitherT fin) w') as [[e|u] w'']; reflexivity.
Qed.

Lemma run_setStatus (s : Status.t) (w : World) a d :
  run (setStatus s) (evolve w a d) =
  (inr tt, evolve w (set_status s a) (d ++ [SetStatus s])).
Proof. unfold run, evolve, set_status; cbn. rewrite app_assoc. reflexivity. Qed.

Lemma run_setIsProcessing (b : bool) (w : World) a d :
  run (setIsProcessing b) (evolve w a d) =
  (inr tt, evolve w (set_busy b a) (d ++ [SetIsProcessing b])).
Proof. unfold run, evolve, set_busy; cbn. rewrite app_assoc. reflexivity. Qed.

Lemma run_effect (e : Event) (w : World) a d :
  run (effect e) (evolve w a d) = (inr tt, evolve w a (d ++ [e])).
Proof. unfold run, evolve; cbn. rewrite app_assoc. reflexivity. Qed.

Lemma run_API_BASE (w : World) a d :
  run (gets API_BASE) (evolve w a d) = (inr (API_BASE w), evolve w a d).
Proof. reflexivity. Qed.

Lemma run_axios (r : Request) (w : World) a d :
  run (axios r) (evolve w a d) =
  (settle (server w (calls w ++ requests_of d) r),
   evolve w a (d ++ [AxiosCall r])).
Proof.
  unfold run, axios; cbn.
  change (requests_of (log w ++ d)) with (calls (evolve w a d)).
  rewrite calls_evolve.
  unfold evolve, emit; cbn. rewrite app_assoc.
  destruct (settle (server w (calls w ++ requests_of d) r)); reflexivity.
Qed.

(** One step of symbolic execution: unfold a bind, a [catch] or a
    primitive, then reduce the match on its completion. *)
Ltac run_step :=
  first
    [ rewrite run_bind
    | rewrite run_catch
    | rewrite run_try_finally
    | rewrite run_setStatus
    | rewrite run_setIsProcessing
    | rewrite run_effect
    | rewrite run_API_BASE
    | rewrite run_axios
    | rewrite run_ret
    | rewrite run_raise ];
  cbv beta iota.

Ltac run_steps := repeat run_step.

(** Case analysis on the way the pending request settles. *)
Ltac settle_cases :=
  match goal with
  | |- context [settle ?res] => destruct (settle res)
  end.

(** Bring the log and the request history written by [run_steps] back
    to flat lists. *)
Ltac flatten := cbn [List.app requests_of statuses_of]; rewrite ?app_nil_r.

(* ===================================================================== *)
(** ** The three stages *)
(* ===================================================================== *)

Section Stages.

Variable fd : FormData.t.
Variable w : World.
Variable a : App.state.
Variable d : list Event.

Lemma run_uploadFiles_missing :
  files_present fd = false ->
  run (uploadFiles fd) (evolve w a d) =
  (inr false,
   evolve w (set_status (Error validation_message) a)
     (d ++ [SetStatus (Error validation_message)])).
Proof.
  unfold files_present, uploadFiles. intros H.
  destruct (FormData.participants fd), (FormData.template fd);
    try discriminate H; run_steps; reflexivity.
Qed.

Lemma run_uploadFiles_present (p t : File) :
  FormData.participants fd = Some p ->
  FormData.template fd = Some t ->
  let r := upload_request (API_BASE w) p t (FormData.emailBody fd) in
  run (uploadFiles fd) (evolve w a d) =
  (if accepted (server w) (calls w ++ requests_of d) r
   then inr true else inl (ErrorInstance "Failed to upload files"),
   evolve w a (d ++ [AxiosCall r])).
Proof.
  intros Hp Ht r. unfold uploadFiles. rewrite Hp, Ht.
  subst r. unfold axios_post, accepted, upload_request.
  run_steps. settle_cases; run_steps; reflexivity.
Qed.

Lemma run_generateCertificates :
  let r := generate_request (API_BASE w) fd in
  run (generateCertificates fd) (evolve w a d) =
  (if accepted (server w) (calls w ++ requests_of d) r
   then inr true else inl (ErrorInstance "Failed to generate certificates"),
   evolve w a (d ++ [AxiosCall r])).
Proof.
  intros r. subst r.
  unfold generateCertificates, axios_post, accepted, generate_request.
  run_steps. settle_cases; run_steps; reflexivity.
Qed.

Lemma run_sendEmails_no_sender :
  FormData.senderEmail fd = "" ->
  run (sendEmails fd) (evolve w a d) =
  (inl (ErrorInstance "Sender email is required"), evolve w a d).
Proof.
  intros H. unfold sendEmails. rewrite H. reflexivity.
Qed.

Lemma run_sendEmails_sender :
  FormData.senderEmail fd <> "" ->
  let r := send_request (API_BASE w) fd in
  run (sendEmails fd) (evolve w a d) =
  (if accepted (server w) (calls w ++ requests_of d) r
   then inr true else inl (ErrorInstance "Failed to send emails"),
   evolve w a (d ++ [AxiosCall r])).
Proof.
  intros H r. subst r.
  unfold sendEmails, axios_post, accepted, send_request.
  destruct (FormData.senderEmail fd) as [|c s]; [congruence|].
  cbn [truthy_string negb].
  run_steps. settle_cases; run_steps; reflexivity.
Qed.

End Stages.

(* ===================================================================== *)
(** ** Reading the result of a run *)
(* ===================================================================== *)

Lemma events_evolve {A : Type} {m : M A} {w : World} {a d} :
  after m w = evolve w a d -> events m w = d.
Proof.
  intros H. unfold events. rewrite H. cbn.
  rewrite skipn_app, skipn_all, Nat.sub_diag. reflexivity.
Qed.

Lemma issued_evolve {A : Type} {m : M A} {w : World} {a d} :
  after m w = evolve w a d -> issued m w = requests_of d.
Proof. intros H. unfold issued. rewrite (events_evolve H). reflexivity. Qed.

Lemma after_run {A : Type} {m : M A} {w : World} {r w'} :
  run m w = (r, w') -> after m w = w'.
Proof. intros H. unfold after. rewrite H. reflexivity. Qed.

Lemma outcome_run {A : Type} {m : M A} {w : World} {r w'} :
  run m w = (r, w') -> outcome m w = r.
Proof. intros H. unfold outcome. rewrite H. reflexivity. Qed.

(** One endpoint is not mistaken for another, whatever the base URL. *)
Lemma eqb_append_prefix (b s1 s2 : string) :
  String.eqb (b ++ s1) (b ++ s2) = String.eqb s1 s2.
Proof.
  induction b as [|c b IH]; [reflexivity|].
  cbn. rewrite Ascii.eqb_refl. exact IH.
Qed.

(** A call is not accepted exactly when it fails, and it is accepted
    exactly when a 2xx response comes back. *)
Lemma accepted_false_iff (srv : Backend) (past : list Request) (r : Request) :
  accepted srv past r = false <-> call_fails srv past r.
Proof.
  unfold call_fails, accepted, settle, validateStatus.
  destruct (srv past r) as [resp|].
  - destruct (Nat.leb_spec 200 (code resp)), (Nat.ltb_spec (code resp) 300);
      cbn; (split; [intros E | intros [E|[resp' [E Hc]]]]);
      try discriminate E;
      try (right; exists resp; split; [reflexivity|lia]);
      try reflexivity.
    injection E as <-. lia.
  - split; [left|]; reflexivity.
Qed.

Lemma accepted_true_iff (srv : Backend) (past : list Request) (r : Request) :
  accepted srv past r = true <->
  exists resp, srv past r = Replied resp /\ (200 <= code resp < 300)%nat.
Proof.
  destruct (accepted srv past r) eqn:E.
  - split; [intros _ | reflexivity].
    unfold accepted, settle, validateStatus in E.
    destruct (srv past r) as [resp|]; [|discriminate E].
    exists resp. split; [reflexivity|].
    destruct (Nat.leb_spec 200 (code resp)), (Nat.ltb_spec (code resp) 300);
      cbn in E; try discriminate E. lia.
  - apply accepted_false_iff in E.
    split; [discriminate|]. intros (resp & H & Hc).
    destruct E as [E|(resp' & E & Hc')]; rewrite H in E;
      [discriminate E | injection E as <-; contradiction].
Qed.

(** Symbolic execution of [handleStartProcess]: the stages are settled
    with the facts at hand. *)
Ltac run_stage :=
  first
    [ rewrite run_uploadFiles_missing by assumption
    | erewrite run_uploadFiles_present by eassumption
    | rewrite run_generateCertificates
    | rewrite run_sendEmails_no_sender by assumption
    | rewrite run_sendEmails_sender by assumption ];
  cbv beta iota zeta; flatten.

Ltac use_fact :=
  match goal with
  | H : accepted _ _ _ = _ |- _ => rewrite H
  end;
  cbv beta iota.

Ltac run_handler :=
  unfold handleStartProcess, try_catch_finally, handleStartProcess_try,
    handleStartProcess_catch;
  repeat first [ run_step | run_stage | use_fact ];
  cbn [instanceof_Error error_message set_status set_busy
       App.formData App.status App.isProcessing List.app].

(** A run from [w] is a run from its normal form [evolve w (app w) []]. *)
Lemma run_from_start {A : Type} (m : M A) (w : World) :
  run m w = run m (evolve w (app w) []).
Proof. rewrite evolve_nil. reflexivity. Qed.

Ltac from_start w := rewrite (run_from_start _ w).

(* ===================================================================== *)
(** ** Complete runs of [handleStartProcess] *)
(* ===================================================================== *)

Section Runs.

Variable fd : FormData.t.
Variable w : World.

Let gen : Request := generate_request (API_BASE w) fd.
Let snd : Request := send_request (API_BASE w) fd.

Section FilesPresent.

Variables p t : File.
Hypothesis Hp : FormData.participants fd = Some p.
Hypothesis Ht : FormData.template fd = Some t.

Let up : Request := upload_request (API_BASE w) p t (FormData.emailBody fd).

Lemma run_upload_fails :
  accepted (server w) (calls w) up = false ->
  run (handleStartProcess fd) w =
  (inr tt,
   evolve w (settled w (Error "Failed to upload files"))
     [ SetIsProcessing true;
       SetStatus (Loading "Starting process...");
       SetStatus (Loading "Uploading files...");
       AxiosCall up;
       SetStatus (Error "Failed to upload files");
       SetIsProcessing false ]).
Proof.
  subst up. intros Hu. from_start w. run_handler. reflexivity.
Qed.

Lemma run_generate_fails :
  accepted (server w) (calls w) up = true ->
  accepted (server w) (calls w ++ [up]) gen = false ->
  run (handleStartProcess fd) w =
  (inr tt,
   evolve w (settled w (Error "Failed to generate certificates"))
     [ SetIsProcessing true;
       SetStatus (Loading "Starting process...");
       SetStatus (Loading "Uploading files...");
       AxiosCall up;
       SetStatus (Loading "Generating certificates...");
       AxiosCall gen;
       SetStatus (Error "Failed to generate certificates");
       SetIsProcessing false ]).
Proof.
  subst up gen. intros Hu Hg. from_start w. run_handler. reflexivity.
Qed.

Lemma run_sender_missing :
  FormData.senderEmail fd = "" ->
  accepted (server w) (calls w) up = true ->
  accepted (server w) (calls w ++ [up]) gen = true ->
  run (handleStartProcess fd) w =
  (inr tt,
   evolve w (settled w (Error "Sender email is required"))
     [ SetIsProcessing true;
       SetStatus (Loading "Starting process...");
       SetStatus (Loading "Uploading files...");
       AxiosCall up;
       SetStatus (Loading "Generating certificates...");
       AxiosCall gen;
       SetStatus (Loading "Sending emails...");
       SetStatus (Error "Sender email is required");
       SetIsProcessing false ]).
Proof.
  subst up gen. intros Hs Hu Hg. from_start w. run_handler. reflexivity.
Qed.

Lemma run_send_fails :
  FormData.senderEmail fd <> "" ->
  accepted (server w) (calls w) up = true ->
  accepted (server w) (calls w ++ [up]) gen = true ->
  accepted (server w) (calls w ++ [up; gen]) snd = false ->
  run (handleStartProcess fd) w =
  (inr tt,
   evolve w (settled w (Error "Failed to send emails"))
     [ SetIsProcessing true;
       SetStatus (Loading "Starting process...");
       SetStatus (Loading "Uploading files...");
       AxiosCall up;
       SetStatus (Loading "Generating certificates...");
       AxiosCall gen;
       SetStatus (Loading "Sending emails...");
       AxiosCall snd;
       SetStatus (Error "Failed to send emails");
       SetIsProcessing false ]).
Proof.
  subst up gen snd. intros Hs Hu Hg Hse. from_start w. run_handler.
  reflexivity.
Qed.

Lemma run_all_succeed :
  FormData.senderEmail fd <> "" ->
  accepted (server w) (calls w) up = true ->
  accepted (server w) (calls w ++ [up]) gen = true ->
  accepted (server w) (calls w ++ [up; gen]) snd = true ->
  run (handleStartProcess fd) w =
  (inr tt,
   evolve w (settled w (Success "All operations completed successfully!"))
     [ SetIsProcessing true;
       SetStatus (Loading "Starting process...");
       SetStatus (Loading "Uploading files...");
       AxiosCall up;
       SetStatus (Loading "Generating certificates...");
       AxiosCall gen;
       SetStatus (Loading "Sending emails...");
       AxiosCall snd;
       SetStatus (Success "All operations completed successfully!");
       SetIsProcessing false ]).
Proof.
  subst up gen snd. intros Hs Hu Hg Hse. from_start w. run_handler.
  reflexivity.
Qed.

End FilesPresent.

Section FilesMissing.

Hypothesis Hmissing : files_present fd = false.

Lemma run_missing_generate_fails :
  accepted (server w) (calls w) gen = false ->
  run (handleStartProcess fd) w =
  (inr tt,
   evolve w (settled w (Error "Failed to generate certificates"))
     (missing_prefix fd w ++
      [ SetStatus (Error "Failed to generate certificates");
        SetIsProcessing false ])).
Proof.
  unfold missing_prefix. subst gen. intros Hg. from_start w. run_handler.
  reflexivity.
Qed.

Lemma run_missing_sender_missing :
  FormData.senderEmail fd = "" ->
  accepted (server w) (calls w) gen = true ->
  run (handleStartProcess fd) w =
  (inr tt,
   evolve w (settled w (Error "Sender email is required"))
     (missing_prefix fd w ++
      [ SetStatus (Loading "Sending emails...");
        SetStatus (Error "Sender email is required");
        SetIsProcessing false ])).
Proof.
  unfold missing_prefix. subst gen. intros Hs Hg. from_start w.
  run_handler. reflexivity.
Qed.

Lemma run_missing_send_fails :
  FormData.senderEmail fd <> "" ->
  accepted (server w) (calls w) gen = true ->
  accepted (server w) (calls w ++ [gen]) snd = false ->
  run (handleStartProcess fd) w =
  (inr tt,
   evolve w (settled w (Error "Failed to send emails"))
     (missing_prefix fd w ++
      [ SetStatus (Loading "Sending emails...");
        AxiosCall snd;
        SetStatus (Error "Failed to send emails");
        SetIsProcessing false ])).
Proof.
  unfold missing_prefix. subst gen snd. intros Hs Hg Hse. from_start w.
  run_handler. reflexivity.
Qed.

Lemma run_missing_rest_succeeds :
  FormData.senderEmail fd <> "" ->
  accepted (server w) (calls w) gen = true ->
  accepted (server w) (calls w ++ [gen]) snd = true ->
  run (handleStartProcess fd) w =
  (inr tt,
   evolve w (settled w (Success "All operations completed successfully!"))
     (missing_prefix fd w ++
      [ SetStatus (Loading "Sending emails...");
        AxiosCall snd;
        SetStatus (Success "All operations completed successfully!");
        SetIsProcessing false ])).
Proof.
  unfold missing_prefix. subst gen snd. intros Hs Hg Hse. from_start w.
  run_handler. reflexivity.
Qed.

End FilesMissing.

End Runs.

(* ===================================================================== *)
(** ** A frame rule for the handlers *)
(* ===================================================================== *)

Section FrameRules.

Variable P : Event -> Prop.
Context {A B : Type}.

Lemma confined_ret (x : A) : confined P (ret x : M A).
Proof.
  intros w. exists (app w), []. rewrite evolve_nil. repeat split. constructor.
Qed.

Lemma confined_raise (e : Thrown) : confined P (raise e : M A).
Proof.
  intros w. exists (app w), []. rewrite evolve_nil. repeat split. constructor.
Qed.

Lemma confined_gets (f : World -> A) : confined P (gets f).
Proof.
  intros w. exists (app w), []. rewrite evolve_nil. repeat split. constructor.
Qed.

Lemma confined_bind (m : M A) (k : A -> M B) :
  confined P m -> (forall x, confined P (k x)) -> confined P (bind m k).
Proof.
  intros Hm Hk w. destruct (Hm w) as (a & d & E & F & Q).
  unfold after in *. rewrite run_bind.
  destruct (run m w) as [[e|x] w']; cbn in E; subst w'.
  - exists a, d. auto.
  - destruct (Hk x (evolve w a d)) as (a' & d' & E' & F' & Q').
    exists a', (d ++ d'). unfold after in E'.
    rewrite E', evolve_evolve. repeat split.
    + cbn in F'. congruence.
    + apply Forall_app. auto.
Qed.

Lemma confined_catch (m : M A) (h : Thrown -> M A) :
  confined P m -> (forall e, confined P (h e)) -> confined P (catch m h).
Proof.
  intros Hm Hh w. destruct (Hm w) as (a & d & E & F & Q).
  unfold after in *. rewrite run_catch.
  destruct (run m w) as [[e|x] w']; cbn in E; subst w'.
  - destruct (Hh e (evolve w a d)) as (a' & d' & E' & F' & Q').
    exists a', (d ++ d'). unfold after in E'.
    rewrite E', evolve_evolve. repeat split.
    + cbn in F'. congruence.
    + apply Forall_app. auto.
  - exists a, d. auto.
Qed.

Lemma confined_try_finally (m : M A) (fin : M unit) :
  confined P m -> confined P fin -> confined P (try_finally m fin).
Proof.
  intros Hm Hf w. destruct (Hm w) as (a & d & E & F & Q).
  unfold after in *. rewrite run_try_finally.
  destruct (run m w) as [r w']; cbn in E; subst w'.
  destruct (Hf (evolve w a d)) as (a' & d' & E' & F' & Q').
  unfold after in E'.
  exists a', (d ++ d').
  destruct (run fin (evolve w a d)) as [[e|u] w'']; cbn in E'; subst w'';
    cbn [snd]; rewrite evolve_evolve; repeat split;
    try (cbn in F'; congruence); apply Forall_app; auto.
Qed.

Lemma never_throws_catch (m : M A) (h : Thrown -> M A) :
  (forall e, never_throws (h e)) -> never_throws (catch m h).
Proof.
  intros Hh w. unfold outcome. rewrite run_catch.
  destruct (run m w) as [[e|x] w'].
  - apply Hh.
  - exists x. reflexivity.
Qed.

Lemma confined_setStatus (s : Status.t) :
  P (SetStatus s) -> confined P (setStatus s).
Proof.
  intros H w. exists (set_status s (app w)), [SetStatus s].
  repeat split. repeat constructor. exact H.
Qed.

Lemma confined_setIsProcessing (b : bool) :
  P (SetIsProcessing b) -> confined P (setIsProcessing b).
Proof.
  intros H w. exists (set_busy b (app w)), [SetIsProcessing b].
  repeat split. repeat constructor. exact H.
Qed.

Lemma confined_axios (r : Request) :
  P (AxiosCall r) -> confined P (axios r).
Proof.
  intros H w. exists (app w), [AxiosCall r]. unfold after.
  rewrite run_from_start, run_axios.
  repeat split. repeat constructor. exact H.
Qed.

End FrameRules.

Lemma never_throws_setStatus (s : Status.t) : never_throws (setStatus s).
Proof. intros w. exists tt. reflexivity. Qed.

(** Apply the frame rules along the structure of a handler. *)
Ltac frame :=
  repeat first
    [ apply confined_ret
    | apply confined_raise
    | apply confined_gets
    | apply confined_setStatus; exact I
    | apply confined_setIsProcessing; exact I
    | apply confined_axios; exact I
    | assumption
    | apply confined_bind; [|intros ?]
    | apply confined_catch; [|intros ?]
    | apply confined_try_finally ].

Lemma confined_uploadFiles (fd : FormData.t) :
  confined stage_event (uploadFiles fd).
Proof.
  unfold uploadFiles, axios_post.
  destruct (FormData.participants fd), (FormData.template fd); frame.
Qed.

Lemma confined_generateCertificates (fd : FormData.t) :
  confined stage_event (generateCertificates fd).
Proof. unfold generateCertificates, axios_post. frame. Qed.

Lemma confined_sendEmails (fd : FormData.t) :
  confined stage_event (sendEmails fd).
Proof.
  unfold sendEmails, axios_post.
  destruct (negb (truthy_string (FormData.senderEmail fd))); frame.
Qed.

Lemma confined_handleStartProcess_try (fd : FormData.t) :
  confined stage_event (handleStartProcess_try fd).
Proof.
  pose proof (confined_uploadFiles fd).
  pose proof (confined_generateCertificates fd).
  pose proof (confined_sendEmails fd).
  unfold handleStartProcess_try. frame.
Qed.

Lemma confined_handleStartProcess_catch (e : Thrown) :
  confined stage_event (handleStartProcess_catch e).
Proof. unfold handleStartProcess_catch. frame. Qed.

(** The shape of every run of [handleStartProcess]: it completes
    normally, raises the busy flag first and clears it last, and in
    between only sets statuses and issues requests. *)
Lemma handleStartProcess_shape (fd : FormData.t) (w : World) :
  exists s d,
    run (handleStartProcess fd) w =
    (inr tt,
     evolve w (settled w s)
       (SetIsProcessing true :: d ++ [SetIsProcessing false])) /\
    Forall stage_event d.
Proof.
  pose (body := catch (handleStartProcess_try fd) handleStartProcess_catch).
  assert (Hr : confined stage_event body).
  { apply confined_catch;
      auto using confined_handleStartProcess_try,
        confined_handleStartProcess_catch. }
  assert (Hn : never_throws body).
  { apply never_throws_catch. intros e. apply never_throws_setStatus. }
  unfold handleStartProcess, try_catch_finally. fold body.
  from_start w. run_steps.
  match goal with
  | |- context [run body ?w1] =>
      destruct (Hr w1) as (a & d & E & F & Q);
      destruct (Hn w1) as ([] & O);
      unfold after in E; unfold outcome in O;
      destruct (run body w1) as [r w2]; cbn in E, O; subst r w2
  end.
  rewrite evolve_evolve. run_steps.
  exists (App.status a), (SetStatus (Loading "Starting process...") :: d).
  split; [|constructor; [exact I | exact Q]].
  unfold settled, set_busy. cbn in F. rewrite F. cbn. reflexivity.
Qed.

(** Counting the calls of a run to the three endpoints. *)
Ltac count_endpoints :=
  unfold count_calls, endpoint;
  cbn [filter url upload_request generate_request send_request];
  rewrite ?eqb_append_prefix; cbn.

(* ===================================================================== *)
(** ** The workflow: [handleStartProcess] *)
(* ===================================================================== *)

(** The start button does nothing while it is disabled, and it is
    disabled as long as a file or the sender address is missing. *)
Lemma click_start_gated (w : World) :
  start_disabled (app w) = true -> run click_start w = (inr tt, w).
Proof.
  intros H. unfold click_start, run. cbn. rewrite H. reflexivity.
Qed.

Lemma start_disabled_without_files (a : App.state) :
  files_present (App.formData a) = false -> start_disabled a = true.
Proof.
  unfold files_present, start_disabled. intros H.
  destruct (truthy_file (FormData.participants (App.formData a))),
    (truthy_file (FormData.template (App.formData a)));
    try discriminate H; cbn; rewrite ?orb_true_r; reflexivity.
Qed.

Lemma start_disabled_without_sender (a : App.state) :
  FormData.senderEmail (App.formData a) = "" -> start_disabled a = true.
Proof.
  unfold start_disabled. intros ->. cbn. rewrite !orb_true_r. reflexivity.
Qed.

(** A handler that returns without changing the world has added no
    event and issued no request. *)
Lemma events_of_noop {A : Type} {m : M A} {w : World} {x} :
  run m w = (inr x, w) -> events m w = [] /\ issued m w = [].
Proof.
  intros H. pose proof (after_run H) as E. rewrite <- (evolve_nil w) in E at 2.
  rewrite (issued_evolve E), (events_evolve E). split; reflexivity.
Qed.

(** C1 as stated fails: on the form [form_no_files] the start button is
    disabled; a click runs nothing, so no status is set: the status is
    still the initial one, not the validation error. *)
Lemma missing_files_click_sets_no_status :
  let w := fresh backend_ok form_no_files in
  files_present form_no_files = false /\
  start_disabled (app w) = true /\
  events click_start w = [] /\
  App.status (app (after click_start w)) = Status.initial /\
  App.status (app (after click_start w)) <> Error validation_message.
Proof. repeat split. discriminate. Qed.

(** C1, amended: whenever participants or template is absent from the
    form, the start button is disabled, so a click starts no run: the
    world is left as it was, which means that no status is set (the
    validation error status is not shown) and that no request is issued
    to any endpoint. *)
Theorem missing_files_start_is_gated (w : World) :
  files_present (App.formData (app w)) = false ->
  start_disabled (app w) = true /\
  run click_start w = (inr tt, w) /\
  events click_start w = [] /\
  issued click_start w = [].
Proof.
  intros H.
  pose proof (start_disabled_without_files (app w) H) as Hd.
  pose proof (click_start_gated w Hd) as R.
  destruct (events_of_noop R) as (He & Hi).
  repeat split; assumption.
Qed.

Lemma missing_files_start_is_gated_witness :
  let w := fresh backend_ok form_no_files in
  start_disabled (app w) = true /\
  run click_start w = (inr tt, w) /\
  events click_start w = [] /\
  issued click_start w = [].
Proof.
  apply (@missing_files_start_is_gated (fresh backend_ok form_no_files)).
  reflexivity.
Defined.

(** C2: when a file is missing, [uploadFiles] returns [false] without
    throwing, and [handleStartProcess] goes on: the validation error is
    the status for one step only, the next step sets the loading status
    of the generate stage, and the generate request is issued.  If the
    generate call succeeds, the sender address is there and the send call
    succeeds, the run ends in the success status. *)
Theorem missing_files_run_continues (fd : FormData.t) (w : World) :
  files_present fd = false ->
  outcome (uploadFiles fd) w = inr false /\
  firstn 6 (events (handleStartProcess fd) w) =
    [ SetIsProcessing true;
      SetStatus (Loading "Starting process...");
      SetStatus (Loading "Uploading files...");
      SetStatus (Error validation_message);
      SetStatus (Loading "Generating certificates...");
      AxiosCall (generate_request (API_BASE w) fd) ] /\
  (accepted (server w) (calls w) (generate_request (API_BASE w) fd) = true ->
   FormData.senderEmail fd <> "" ->
   accepted (server w) (calls w ++ [generate_request (API_BASE w) fd])
     (send_request (API_BASE w) fd) = true ->
   App.status (app (after (handleStartProcess fd) w)) =
     Success "All operations completed successfully!").
Proof.
  intros Hm. split; [|split].
  - eapply outcome_run. from_start w. apply run_uploadFiles_missing, Hm.
  - change (firstn 6 (events (handleStartProcess fd) w) = missing_prefix fd w).
    destruct (accepted (server w) (calls w) (generate_request (API_BASE w) fd))
      eqn:Hg;
      [ destruct (string_dec (FormData.senderEmail fd) "") as [Hs|Hs];
        [ | destruct (accepted (server w)
                        (calls w ++ [generate_request (API_BASE w) fd])
                        (send_request (API_BASE w) fd)) eqn:Hse ] | ].
    + rewrite (events_evolve (after_run (run_missing_sender_missing fd w Hm Hs Hg))).
      reflexivity.
    + rewrite (events_evolve (after_run (run_missing_rest_succeeds fd w Hm Hs Hg Hse))).
      reflexivity.
    + rewrite (events_evolve (after_run (run_missing_send_fails fd w Hm Hs Hg Hse))).
      reflexivity.
    + rewrite (events_evolve (after_run (run_missing_generate_fails fd w Hm Hg))).
      reflexivity.
  - intros Hg Hs Hse.
    rewrite (after_run (run_missing_rest_succeeds fd w Hm Hs Hg Hse)).
    reflexivity.
Qed.

Lemma missing_files_run_continues_witness :
  files_present form_no_files = false /\
  outcome (uploadFiles form_no_files) (fresh backend_ok form_no_files) =
    inr false /\
  App.status
    (app (after (handleStartProcess form_no_files)
            (fresh backend_ok form_no_files))) =
    Success "All operations completed successfully!".
Proof.
  destruct (@missing_files_run_continues form_no_files
              (fresh backend_ok form_no_files) eq_refl) as (Hu & _ & Hs).
  split; [reflexivity|]. split; [exact Hu|].
  apply Hs; [reflexivity | discriminate | reflexivity].
Defined.

(** C3: when both files are there, the sender address is there and the
    three calls succeed, the run passes exactly five statuses to
    [setStatus], in this order: loading "Starting process...", loading
    "Uploading files...", loading "Generating certificates...", loading
    "Sending emails...", success "All operations completed
    successfully!"; the last one is the status it leaves. *)
Theorem successful_run_statuses (fd : FormData.t) (w : World) (p t : File) :
  FormData.participants fd = Some p ->
  FormData.template fd = Some t ->
  FormData.senderEmail fd <> "" ->
  let up := upload_request (API_BASE w) p t (FormData.emailBody fd) in
  let gen := generate_request (API_BASE w) fd in
  let snd := send_request (API_BASE w) fd in
  accepted (server w) (calls w) up = true ->
  accepted (server w) (calls w ++ [up]) gen = true ->
  accepted (server w) (calls w ++ [up; gen]) snd = true ->
  statuses_of (events (handleStartProcess fd) w) =
    [ Loading "Starting process...";
      Loading "Uploading files...";
      Loading "Generating certificates...";
      Loading "Sending emails...";
      Success "All operations completed successfully!" ] /\
  App.status (app (after (handleStartProcess fd) w)) =
    Success "All operations completed successfully!".
Proof.
  intros Hp Ht Hs up gen snd Hu Hg Hse.
  pose proof (after_run (run_all_succeed fd w Hp Ht Hs Hu Hg Hse)) as E.
  rewrite (events_evolve E), E. split; reflexivity.
Qed.

Lemma successful_run_statuses_witness :
  statuses_of
    (events (handleStartProcess form_complete) (fresh backend_ok form_complete)) =
    [ Loading "Starting process...";
      Loading "Uploading files...";
      Loading "Generating certificates...";
      Loading "Sending emails...";
      Success "All operations completed successfully!" ] /\
  App.status
    (app (after (handleStartProcess form_complete)
            (fresh backend_ok form_complete))) =
    Success "All operations completed successfully!".
Proof.
  apply (@successful_run_statuses form_complete (fresh backend_ok form_complete)
           roster artwork);
    solve [reflexivity | discriminate].
Defined.

(** C4: when both files are there and the upload call fails (no
    response, or a response that is not 2xx), the run ends with the status
    error "Failed to upload files", and the only request it has issued is
    the upload: one call to the upload endpoint, none to the generate
    endpoint, none to the send endpoint. *)
Theorem failed_upload_stops_run (fd : FormData.t) (w : World) (p t : File) :
  FormData.participants fd = Some p ->
  FormData.template fd = Some t ->
  let up := upload_request (API_BASE w) p t (FormData.emailBody fd) in
  call_fails (server w) (calls w) up ->
  let rs := issued (handleStartProcess fd) w in
  App.status (app (after (handleStartProcess fd) w)) =
    Error "Failed to upload files" /\
  rs = [up] /\
  count_calls (endpoint w "/upload-files") rs = 1 /\
  count_calls (endpoint w "/generate-certificates") rs = 0 /\
  count_calls (endpoint w "/send-emails") rs = 0.
Proof.
  intros Hp Ht up Hu rs. apply accepted_false_iff in Hu.
  pose proof (after_run (run_upload_fails fd w Hp Ht Hu)) as E.
  subst rs. rewrite (issued_evolve E), E. cbn [requests_of].
  repeat split; count_endpoints; reflexivity.
Qed.

Lemma failed_upload_stops_run_witness :
  let w := fresh backend_broken form_complete in
  let rs := issued (handleStartProcess form_complete) w in
  App.status (app (after (handleStartProcess form_complete) w)) =
    Error "Failed to upload files" /\
  rs = [upload_request (API_BASE w) roster artwork "Dear {name}"] /\
  count_calls (endpoint w "/upload-files") rs = 1 /\
  count_calls (endpoint w "/generate-certificates") rs = 0 /\
  count_calls (endpoint w "/send-emails") rs = 0.
Proof.
  apply (@failed_upload_stops_run form_complete
           (fresh backend_broken form_complete) roster artwork);
    try reflexivity.
  right. exists (mkResponse 500 ""). split; [reflexivity | cbn; lia].
Defined.

(** C5 as stated fails: on the form [form_no_sender], with both files
    and an empty sender address, and a backend that accepts every request,
    the start button is disabled; a click runs no stage: the upload and
    generate endpoints are not called and the status is still the initial
    one, not the error of the missing sender. *)
Lemma empty_sender_click_runs_no_stage :
  let w := fresh backend_ok form_no_sender in
  files_present form_no_sender = true /\
  FormData.senderEmail form_no_sender = "" /\
  start_disabled (app w) = true /\
  issued click_start w = [] /\
  count_calls (endpoint w "/upload-files") (issued click_start w) = 0 /\
  count_calls (endpoint w "/generate-certificates") (issued click_start w) = 0 /\
  App.status (app (after click_start w)) = Status.initial /\
  App.status (app (after click_start w)) <> Error "Sender email is required".
Proof. repeat split. discriminate. Qed.

(** C5, amended: when both files are there and the sender address is
    empty, the start button is disabled, so a click runs no stage: the
    world is left as it was and no endpoint is called.  The staged check of
    the handler is only met past that gate: if [handleStartProcess] is run
    on such a form and the upload and generate calls succeed, it calls the
    upload endpoint and then the generate endpoint, calls the send
    endpoint not at all, and ends with the status error "Sender email is
    required". *)
Theorem empty_sender_is_gated (fd : FormData.t) (w : World) (p t : File) :
  FormData.participants fd = Some p ->
  FormData.template fd = Some t ->
  FormData.senderEmail fd = "" ->
  (App.formData (app w) = fd ->
   start_disabled (app w) = true /\
   run click_start w = (inr tt, w) /\
   issued click_start w = []) /\
  (let up := upload_request (API_BASE w) p t (FormData.emailBody fd) in
   let gen := generate_request (API_BASE w) fd in
   accepted (server w) (calls w) up = true ->
   accepted (server w) (calls w ++ [up]) gen = true ->
   issued (handleStartProcess fd) w = [up; gen] /\
   sender_check_reached fd w).
Proof.
  intros Hp Ht Hs. split.
  - intros Hfd.
    assert (Hd : start_disabled (app w) = true).
    { apply start_disabled_without_sender. rewrite Hfd. exact Hs. }
    pose proof (click_start_gated w Hd) as R.
    destruct (events_of_noop R) as (_ & Hi).
    repeat split; assumption.
  - intros up gen Hu Hg.
    pose proof (after_run (run_sender_missing fd w Hp Ht Hs Hu Hg)) as E.
    unfold sender_check_reached.
    rewrite (issued_evolve E), E. cbn [requests_of].
    repeat split; count_endpoints; reflexivity.
Qed.

Lemma empty_sender_is_gated_witness :
  let w := fresh backend_ok form_no_sender in
  (start_disabled (app w) = true /\
   run click_start w = (inr tt, w) /\
   issued click_start w = []) /\
  issued (handleStartProcess form_no_sender) w =
    [ upload_request (API_BASE w) roster artwork "Dear {name}";
      generate_request (API_BASE w) form_no_sender ] /\
  sender_check_reached form_no_sender w.
Proof.
  destruct (@empty_sender_is_gated form_no_sender
              (fresh backend_ok form_no_sender) roster artwork
              eq_refl eq_refl eq_refl) as (Hgate & Hrun).
  split; [apply Hgate; reflexivity | apply Hrun; reflexivity].
Defined.

(** C6: when the upload and generate stages succeed and the send call
    is made and fails, the run ends with the status error "Failed to send
    emails": neither the success status nor the fallback message "An
    error occurred". *)
Theorem failed_send_status (fd : FormData.t) (w : World) (p t : File) :
  FormData.participants fd = Some p ->
  FormData.template fd = Some t ->
  FormData.senderEmail fd <> "" ->
  let up := upload_request (API_BASE w) p t (FormData.emailBody fd) in
  let gen := generate_request (API_BASE w) fd in
  let snd := send_request (API_BASE w) fd in
  accepted (server w) (calls w) up = true ->
  accepted (server w) (calls w ++ [up]) gen = true ->
  call_fails (server w) (calls w ++ [up; gen]) snd ->
  let final := App.status (app (after (handleStartProcess fd) w)) in
  final = Error "Failed to send emails" /\
  Status.type final <> Some success /\
  Status.message final <> "An error occurred".
Proof.
  intros Hp Ht Hs up gen snd Hu Hg Hse final. subst final.
  apply accepted_false_iff in Hse.
  rewrite (after_run (run_send_fails fd w Hp Ht Hs Hu Hg Hse)).
  repeat split; discriminate.
Qed.

Lemma failed_send_status_witness :
  let w := fresh backend_two_then_broken form_complete in
  let final := App.status (app (after (handleStartProcess form_complete) w)) in
  final = Error "Failed to send emails" /\
  Status.type final <> Some success /\
  Status.message final <> "An error occurred".
Proof.
  apply (@failed_send_status form_complete
           (fresh backend_two_then_broken form_complete) roster artwork);
    try solve [reflexivity | discriminate].
  right. exists (mkResponse 500 ""). split; [reflexivity | cbn; lia].
Defined.

(* ===================================================================== *)
(** ** The independent handlers *)
(* ===================================================================== *)

Lemma run_downloadCertificates (w : World) :
  let r := download_request (API_BASE w) in
  run downloadCertificates w =
  (inr tt,
   match settle (server w (calls w) r) with
   | inr response =>
       let u := ("blob:" ++ data response)%string in
       let link := mkLink u "certificates.zip" in
       evolve w (app w)
         [ AxiosCall r; CreateObjectURL (data response); AppendChild link;
           Click link; Remove link; RevokeObjectURL u ]
   | inl _ =>
       evolve w (set_status (Error "Failed to download certificates") (app w))
         [ AxiosCall r; SetStatus (Error "Failed to download certificates") ]
   end).
Proof.
  intros r. subst r.
  unfold downloadCertificates, axios_get, createObjectURL, download_request.
  from_start w. run_steps. flatten.
  settle_cases; run_steps; reflexivity.
Qed.

(** C7: [downloadCertificates] neither reads nor writes the busy flag:
    run with the flag forced to any value, it does the same and leaves the
    flag at that value.  When the archive request fails, it issues that
    request, sets the status to error "Failed to download certificates",
    and changes nothing else: the form, the busy flag and the DOM are
    untouched. *)
Theorem download_leaves_busy_flag (w : World) :
  (forall b : bool,
     run downloadCertificates (with_busy b w) =
     (fst (run downloadCertificates w),
      with_busy b (after downloadCertificates w))) /\
  App.isProcessing (app (after downloadCertificates w)) =
    App.isProcessing (app w) /\
  (accepted (server w) (calls w) (download_request (API_BASE w)) = false ->
   after downloadCertificates w =
   evolve w
     (App.mk (App.formData (app w))
        (Error "Failed to download certificates")
        (App.isProcessing (app w)))
     [ AxiosCall (download_request (API_BASE w));
       SetStatus (Error "Failed to download certificates") ]).
Proof.
  split; [|split].
  - intros b. unfold after.
    rewrite (run_downloadCertificates w), (run_downloadCertificates (with_busy b w)).
    cbn [fst snd]. cbv zeta.
    change (server (with_busy b w)) with (server w).
    change (calls (with_busy b w)) with (calls w).
    change (API_BASE (with_busy b w)) with (API_BASE w).
    destruct (settle (server w (calls w) (download_request (API_BASE w))));
      reflexivity.
  - unfold after. rewrite run_downloadCertificates. cbn [snd]. cbv zeta.
    destruct (settle (server w (calls w) (download_request (API_BASE w))));
      reflexivity.
  - unfold accepted, after. rewrite run_downloadCertificates. cbn [snd]. cbv zeta.
    destruct (settle (server w (calls w) (download_request (API_BASE w))));
      [reflexivity | discriminate].
Qed.

Lemma download_leaves_busy_flag_witness :
  let w := with_busy true (fresh backend_offline form_complete) in
  App.isProcessing (app (after downloadCertificates w)) = true /\
  after downloadCertificates w =
  evolve w
    (App.mk form_complete (Error "Failed to download certificates") true)
    [ AxiosCall (download_request (API_BASE w));
      SetStatus (Error "Failed to download certificates") ].
Proof.
  destruct (download_leaves_busy_flag
              (with_busy true (fresh backend_offline form_complete)))
    as (_ & Hb & Hf).
  split; [exact Hb | apply Hf; reflexivity].
Defined.

(** C8: [checkBackendConnection] leaves the component state (status
    type, status message, busy flag, form) as it found it, whatever the
    health request does; it completes normally, and all it does with the
    result is one console entry: the response data on success, the error
    on failure. *)
Theorem health_check_is_observational (w : World) :
  let r := health_request (API_BASE w) in
  app (after checkBackendConnection w) = app w /\
  outcome checkBackendConnection w = inr tt /\
  events checkBackendConnection w =
    [ AxiosCall r;
      match settle (server w (calls w) r) with
      | inr response => ConsoleLog "Backend connected:" (data response)
      | inl err => ConsoleError "Backend connection failed:" err
      end ].
Proof.
  intros r. subst r.
  assert (E : exists e,
             run checkBackendConnection w =
             (inr tt, evolve w (app w) [AxiosCall (health_request (API_BASE w)); e])
             /\ e = match settle (server w (calls w) (health_request (API_BASE w))) with
                    | inr response => ConsoleLog "Backend connected:" (data response)
                    | inl err => ConsoleError "Backend connection failed:" err
                    end).
  { unfold checkBackendConnection, axios_get, console_log, console_error,
      health_request.
    from_start w. run_steps. flatten.
    settle_cases; run_steps; eexists; split; reflexivity. }
  destruct E as (e & E & ->).
  rewrite (events_evolve (after_run E)), (after_run E), (outcome_run E).
  repeat split.
Qed.

(* ===================================================================== *)
(** ** What a run leaves alone, and what it always does *)
(* ===================================================================== *)

Lemma stage_event_quiet (e : Event) : stage_event e -> quiet e.
Proof. destruct e; cbn; auto. Qed.

(** The form cell is not frozen by the model: the form handler writes
    it. *)
Lemma handleFileChange_writes_form :
  App.formData
    (app (after (handleFileChange participants_field (Some roster))
            (fresh backend_ok FormData.initial))) <>
  FormData.initial.
Proof. discriminate. Qed.

(** C9: [handleStartProcess] never writes the form: after any run,
    whatever the backend did, the form cell holds the value it held when
    the run started, field by field (participants, template, emailBody, x,
    y, fontsize, color, outline, dpi, senderEmail, senderPassword,
    customSubject), and no event of the run is a call of [setFormData].
    This holds for the form [fd] read by the handler in particular when
    [fd] is the content of the cell. *)
Theorem run_keeps_form (fd : FormData.t) (w : World) :
  App.formData (app (after (handleStartProcess fd) w)) = App.formData (app w) /\
  Forall quiet (events (handleStartProcess fd) w).
Proof.
  destruct (handleStartProcess_shape fd w) as (s & d & E & Q).
  rewrite (events_evolve (after_run E)), (after_run E).
  split; [reflexivity|].
  constructor; [exact I|].
  apply Forall_app. split.
  - eapply Forall_impl; [apply stage_event_quiet | exact Q].
  - repeat constructor.
Qed.

(** C10: every run of [handleStartProcess] completes normally and
    leaves the busy flag false.  The first thing it does is to set the flag
    to true, the last thing is to set it to false, and in between it only
    sets statuses and issues requests.  The flag is cleared whatever the
    [try] block does: for any block, throwing any value or none, the
    [catch] clause and the [finally] clause of the handler leave the flag
    false. *)
Theorem busy_flag_cleared (fd : FormData.t) (w : World) :
  outcome (handleStartProcess fd) w = inr tt /\
  App.isProcessing (app (after (handleStartProcess fd) w)) = false /\
  (exists mid,
     events (handleStartProcess fd) w =
       SetIsProcessing true :: mid ++ [SetIsProcessing false] /\
     Forall stage_event mid) /\
  (forall (body : M unit) (w0 : World),
     App.isProcessing
       (app (after (try_catch_finally body handleStartProcess_catch
                      (setIsProcessing false)) w0)) = false).
Proof.
  destruct (handleStartProcess_shape fd w) as (s & d & E & Q).
  rewrite (events_evolve (after_run E)), (after_run E), (outcome_run E).
  repeat split.
  - exists d. split; [reflexivity | exact Q].
  - intros body w0. unfold try_catch_finally, after.
    rewrite run_try_finally.
    destruct (run (catch body handleStartProcess_catch) w0) as [r w1].
    reflexivity.
Qed.

(* ===================================================================== *)
(** ** Further properties of the workflow *)
(* ===================================================================== *)

Lemma truthy_string_true (s : string) : s <> "" -> truthy_string s = true.
Proof. destruct s; [congruence | reflexivity]. Qed.

Lemma files_present_inv (fd : FormData.t) :
  files_present fd = true ->
  exists p t, FormData.participants fd = Some p /\ FormData.template fd = Some t.
Proof.
  unfold files_present.
  destruct (FormData.participants fd) as [p|], (FormData.template fd) as [t|];
    try discriminate. intros _. exists p, t. split; reflexivity.
Qed.

Lemma files_present_intro (fd : FormData.t) (p t : File) :
  FormData.participants fd = Some p -> FormData.template fd = Some t ->
  files_present fd = true.
Proof. unfold files_present. intros -> ->. reflexivity. Qed.

(** X1: when both files are there, the upload call succeeds and the
    generate call fails, the run ends with the status error "Failed to
    generate certificates"; it has called the upload endpoint once, the
    generate endpoint once and the send endpoint not at all. *)
Theorem failed_generate_stops_run (fd : FormData.t) (w : World) (p t : File) :
  FormData.participants fd = Some p ->
  FormData.template fd = Some t ->
  let up := upload_request (API_BASE w) p t (FormData.emailBody fd) in
  let gen := generate_request (API_BASE w) fd in
  accepted (server w) (calls w) up = true ->
  call_fails (server w) (calls w ++ [up]) gen ->
  let rs := issued (handleStartProcess fd) w in
  App.status (app (after (handleStartProcess fd) w)) =
    Error "Failed to generate certificates" /\
  rs = [up; gen] /\
  count_calls (endpoint w "/upload-files") rs = 1 /\
  count_calls (endpoint w "/generate-certificates") rs = 1 /\
  count_calls (endpoint w "/send-emails") rs = 0.
Proof.
  intros Hp Ht up gen Hu Hg rs. apply accepted_false_iff in Hg.
  pose proof (after_run (run_generate_fails fd w Hp Ht Hu Hg)) as E.
  subst rs. rewrite (issued_evolve E), E. cbn [requests_of].
  repeat split; count_endpoints; reflexivity.
Qed.

Lemma failed_generate_stops_run_witness :
  let w := fresh backend_one_then_broken form_complete in
  let rs := issued (handleStartProcess form_complete) w in
  App.status (app (after (handleStartProcess form_complete) w)) =
    Error "Failed to generate certificates" /\
  rs = [ upload_request (API_BASE w) roster artwork "Dear {name}";
         generate_request (API_BASE w) form_complete ] /\
  count_calls (endpoint w "/upload-files") rs = 1 /\
  count_calls (endpoint w "/generate-certificates") rs = 1 /\
  count_calls (endpoint w "/send-emails") rs = 0.
Proof.
  apply (@failed_generate_stops_run form_complete
           (fresh backend_one_then_broken form_complete) roster artwork);
    try reflexivity.
  right. exists (mkResponse 500 ""). split; [reflexivity | cbn; lia].
Defined.

(** X2: with both files, the requests of a run follow the stage order
    and stop at the first stage that fails: the upload request is always
    issued; the generate request exactly when the upload call succeeded;
    the send request exactly when the generate call succeeded too and the
    sender address is not empty.  No request is issued twice. *)
Theorem requests_follow_stage_order (fd : FormData.t) (w : World) (p t : File) :
  FormData.participants fd = Some p ->
  FormData.template fd = Some t ->
  let up := upload_request (API_BASE w) p t (FormData.emailBody fd) in
  let gen := generate_request (API_BASE w) fd in
  let snd := send_request (API_BASE w) fd in
  issued (handleStartProcess fd) w =
  up :: (if accepted (server w) (calls w) up
         then gen :: (if accepted (server w) (calls w ++ [up]) gen
                         && truthy_string (FormData.senderEmail fd)
                      then [snd] else [])
         else []).
Proof.
  intros Hp Ht up gen snd.
  destruct (accepted (server w) (calls w) up) eqn:Hu.
  - destruct (accepted (server w) (calls w ++ [up]) gen) eqn:Hg.
    + destruct (string_dec (FormData.senderEmail fd) "") as [Hs|Hs].
      * rewrite (issued_evolve (after_run (run_sender_missing fd w Hp Ht Hs Hu Hg))).
        rewrite Hs. reflexivity.
      * rewrite (truthy_string_true Hs).
        destruct (accepted (server w) (calls w ++ [up; gen]) snd) eqn:Hse.
        -- rewrite (issued_evolve
                      (after_run (run_all_succeed fd w Hp Ht Hs Hu Hg Hse))).
           reflexivity.
        -- rewrite (issued_evolve
                      (after_run (run_send_fails fd w Hp Ht Hs Hu Hg Hse))).
           reflexivity.
    + rewrite (issued_evolve (after_run (run_generate_fails fd w Hp Ht Hu Hg))).
      reflexivity.
  - rewrite (issued_evolve (after_run (run_upload_fails fd w Hp Ht Hu))).
    reflexivity.
Qed.

Lemma requests_follow_stage_order_witness :
  let w := fresh backend_one_then_broken form_complete in
  issued (handleStartProcess form_complete) w =
  [ upload_request (API_BASE w) roster artwork "Dear {name}";
    generate_request (API_BASE w) form_complete ].
Proof.
  exact (@requests_follow_stage_order form_complete
           (fresh backend_one_then_broken form_complete) roster artwork
           eq_refl eq_refl).
Defined.

(** X3: whatever the form and the backend, a run of
    [handleStartProcess] ends with one of five statuses: the success
    status or one of the four errors "Failed to upload files", "Failed to
    generate certificates", "Sender email is required", "Failed to send
    emails".  So it never ends in a loading status or without a status,
    never with the file validation message, and never with the fallback
    message "An error occurred". *)
Theorem final_status_classified (fd : FormData.t) (w : World) :
  let final := App.status (app (after (handleStartProcess fd) w)) in
  In final final_statuses /\
  Status.type final <> Some loading /\
  Status.type final <> None /\
  final <> Error validation_message /\
  Status.message final <> "An error occurred".
Proof.
  intros final.
  assert (H : In final final_statuses).
  { subst final. unfold final_statuses.
    destruct (files_present fd) eqn:Hf.
    - destruct (files_present_inv fd Hf) as (p & t & Hp & Ht).
      set (up := upload_request (API_BASE w) p t (FormData.emailBody fd)).
      set (gen := generate_request (API_BASE w) fd).
      destruct (accepted (server w) (calls w) up) eqn:Hu;
        [ destruct (accepted (server w) (calls w ++ [up]) gen) eqn:Hg;
          [ destruct (string_dec (FormData.senderEmail fd) "") as [Hs|Hs];
            [ | destruct (accepted (server w) (calls w ++ [up; gen])
                            (send_request (API_BASE w) fd)) eqn:Hse ] | ] | ].
      + rewrite (after_run (run_sender_missing fd w Hp Ht Hs Hu Hg)). cbn. auto.
      + rewrite (after_run (run_all_succeed fd w Hp Ht Hs Hu Hg Hse)). cbn. auto.
      + rewrite (after_run (run_send_fails fd w Hp Ht Hs Hu Hg Hse)).
        cbn. auto 6.
      + rewrite (after_run (run_generate_fails fd w Hp Ht Hu Hg)). cbn. auto.
      + rewrite (after_run (run_upload_fails fd w Hp Ht Hu)). cbn. auto.
    - set (gen := generate_request (API_BASE w) fd).
      destruct (accepted (server w) (calls w) gen) eqn:Hg;
        [ destruct (string_dec (FormData.senderEmail fd) "") as [Hs|Hs];
          [ | destruct (accepted (server w) (calls w ++ [gen])
                          (send_request (API_BASE w) fd)) eqn:Hse ] | ].
      + rewrite (after_run (run_missing_sender_missing fd w Hf Hs Hg)).
        cbn. auto.
      + rewrite (after_run (run_missing_rest_succeeds fd w Hf Hs Hg Hse)).
        cbn. auto.
      + rewrite (after_run (run_missing_send_fails fd w Hf Hs Hg Hse)).
        cbn. auto 6.
      + rewrite (after_run (run_missing_generate_fails fd w Hf Hg)).
        cbn. auto. }
  split; [exact H|].
  unfold final_statuses in H. cbn in H.
  repeat split;
    intros E; repeat (destruct H as [H|H]; [rewrite <- H in E; discriminate E|]);
    exact H.
Qed.

(* ===================================================================== *)
(** ** The buttons *)
(* ===================================================================== *)

Lemma run_get (w : World) : run get w = (inr w, w).
Proof. reflexivity. Qed.

Lemma start_enabled_inv (a : App.state) :
  start_disabled a = false ->
  App.isProcessing a = false /\
  files_present (App.formData a) = true /\
  FormData.senderEmail (App.formData a) <> "".
Proof.
  unfold start_disabled, files_present. intros H.
  destruct (App.isProcessing a); [discriminate H|].
  destruct (truthy_file (FormData.participants (App.formData a)));
    [|discriminate H].
  destruct (truthy_file (FormData.template (App.formData a)));
    [|discriminate H].
  destruct (FormData.senderEmail (App.formData a)); [discriminate H|].
  repeat split. discriminate.
Qed.

Lemma click_start_enabled (w : World) :
  start_disabled (app w) = false ->
  run click_start w = run (handleStartProcess (App.formData (app w))) w.
Proof.
  intros H. unfold click_start. rewrite run_bind, run_get. cbv beta iota.
  rewrite H. reflexivity.
Qed.

Lemma click_download_enabled (w : World) :
  App.isProcessing (app w) = false ->
  run click_download w = run downloadCertificates w.
Proof.
  intros H. unfold click_download, download_disabled.
  rewrite run_bind, run_get. cbv beta iota. rewrite H. reflexivity.
Qed.

Lemma click_download_gated (w : World) :
  App.isProcessing (app w) = true -> run click_download w = (inr tt, w).
Proof.
  intros H. unfold click_download, download_disabled.
  rewrite run_bind, run_get. cbv beta iota. rewrite H. reflexivity.
Qed.

(** X4: a run started with the start button never meets the local
    validations.  When the button is enabled, both files and the sender
    address are there, so the click issues the upload request first, and
    the run ends with the success status or with the error of a failed
    call ("Failed to upload files", "Failed to generate certificates",
    "Failed to send emails"): never with the file validation message and
    never with "Sender email is required". *)
Theorem click_start_skips_local_validation (w : World) :
  start_disabled (app w) = false ->
  let fd := App.formData (app w) in
  let final := App.status (app (after click_start w)) in
  (exists p t,
     FormData.participants fd = Some p /\
     FormData.template fd = Some t /\
     hd_error (issued click_start w) =
       Some (upload_request (API_BASE w) p t (FormData.emailBody fd))) /\
  In final
    [ Success "All operations completed successfully!";
      Error "Failed to upload files";
      Error "Failed to generate certificates";
      Error "Failed to send emails" ].
Proof.
  intros H fd final.
  destruct (start_enabled_inv _ H) as (_ & Hf & Hs).
  destruct (files_present_inv _ Hf) as (p & t & Hp & Ht).
  pose proof (click_start_enabled w H) as R.
  assert (Ei : issued click_start w = issued (handleStartProcess fd) w).
  { unfold issued, events, after. rewrite R. reflexivity. }
  assert (Ef : final = App.status (app (after (handleStartProcess fd) w))).
  { subst final. unfold after. rewrite R. reflexivity. }
  fold fd in Hp, Ht, Hs.
  set (up := upload_request (API_BASE w) p t (FormData.emailBody fd)).
  set (gen := generate_request (API_BASE w) fd).
  split.
  - exists p, t. repeat split; try assumption. rewrite Ei.
    destruct (accepted (server w) (calls w) up) eqn:Hu;
      [ destruct (accepted (server w) (calls w ++ [up]) gen) eqn:Hg;
        [ destruct (accepted (server w) (calls w ++ [up; gen])
                      (send_request (API_BASE w) fd)) eqn:Hse | ] | ].
    + rewrite (issued_evolve (after_run (run_all_succeed fd w Hp Ht Hs Hu Hg Hse))).
      reflexivity.
    + rewrite (issued_evolve (after_run (run_send_fails fd w Hp Ht Hs Hu Hg Hse))).
      reflexivity.
    + rewrite (issued_evolve (after_run (run_generate_fails fd w Hp Ht Hu Hg))).
      reflexivity.
    + rewrite (issued_evolve (after_run (run_upload_fails fd w Hp Ht Hu))).
      reflexivity.
  - rewrite Ef.
    destruct (accepted (server w) (calls w) up) eqn:Hu;
      [ destruct (accepted (server w) (calls w ++ [up]) gen) eqn:Hg;
        [ destruct (accepted (server w) (calls w ++ [up; gen])
                      (send_request (API_BASE w) fd)) eqn:Hse | ] | ].
    + rewrite (after_run (run_all_succeed fd w Hp Ht Hs Hu Hg Hse)). cbn. auto.
    + rewrite (after_run (run_send_fails fd w Hp Ht Hs Hu Hg Hse)). cbn. auto.
    + rewrite (after_run (run_generate_fails fd w Hp Ht Hu Hg)). cbn. auto.
    + rewrite (after_run (run_upload_fails fd w Hp Ht Hu)). cbn. auto.
Qed.

Lemma click_start_skips_local_validation_witness :
  let w := fresh backend_offline form_complete in
  (exists p t,
     FormData.participants form_complete = Some p /\
     FormData.template form_complete = Some t /\
     hd_error (issued click_start w) =
       Some (upload_request (API_BASE w) p t "Dear {name}")) /\
  In (App.status (app (after click_start w)))
    [ Success "All operations completed successfully!";
      Error "Failed to upload files";
      Error "Failed to generate certificates";
      Error "Failed to send emails" ].
Proof.
  exact (@click_start_skips_local_validation
           (fresh backend_offline form_complete) eq_refl).
Defined.

(** X5: the busy flag gates both buttons, and the start button raises
    it first.  While [isProcessing] is true, a click on the start button
    or on the download button changes nothing and issues no request.  And
    when the start button is enabled, the first thing a click does, before
    any status update or request, is to set [isProcessing] to true. *)
Theorem busy_flag_gates_buttons (w : World) :
  (App.isProcessing (app w) = true ->
   run click_start w = (inr tt, w) /\ run click_download w = (inr tt, w)) /\
  (start_disabled (app w) = false ->
   hd_error (events click_start w) = Some (SetIsProcessing true)).
Proof.
  split.
  - intros H. split.
    + apply click_start_gated. unfold start_disabled. rewrite H. reflexivity.
    + apply click_download_gated, H.
  - intros H.
    destruct (handleStartProcess_shape (App.formData (app w)) w)
      as (s & d & E & _).
    rewrite <- (click_start_enabled w H) in E.
    rewrite (events_evolve (after_run E)). reflexivity.
Qed.

Lemma busy_flag_gates_buttons_witness :
  (let w := with_busy true (fresh backend_ok form_complete) in
   run click_start w = (inr tt, w) /\ run click_download w = (inr tt, w)) /\
  hd_error (events click_start (fresh backend_ok form_complete)) =
    Some (SetIsProcessing true).
Proof.
  split.
  - destruct (busy_flag_gates_buttons
                (with_busy true (fresh backend_ok form_complete))) as (H & _).
    apply H. reflexivity.
  - destruct (busy_flag_gates_buttons (fresh backend_ok form_complete))
      as (_ & H).
    apply H. reflexivity.
Defined.

(* ===================================================================== *)
(** ** The form handlers *)
(* ===================================================================== *)

Lemma run_setFormData (f : FormData.t -> FormData.t) (w : World) :
  run (setFormData f) w =
  (inr tt,
   evolve w (set_form (f (App.formData (app w))) (app w))
     [SetFormData (f (App.formData (app w)))]).
Proof. reflexivity. Qed.

Lemma run_handleInputChange (k : Key.t) (v : Key.value k) (w : World) :
  run (handleInputChange k v) w =
  (inr tt,
   evolve w (set_form (Key.assign k v (App.formData (app w))) (app w))
     [SetFormData (Key.assign k v (App.formData (app w)))]).
Proof. reflexivity. Qed.

Lemma read_assign_same (k : Key.t) (v : Key.value k) (fd : FormData.t) :
  Key.read k (Key.assign k v fd) = v.
Proof. destruct k; reflexivity. Qed.

Lemma read_assign_other (k k' : Key.t) (v : Key.value k) (fd : FormData.t) :
  k' <> k -> Key.read k' (Key.assign k v fd) = Key.read k' fd.
Proof. destruct k, k'; intros H; try reflexivity; contradiction H; reflexivity. Qed.

Lemma assign_assign_same (k : Key.t) (v1 v2 : Key.value k) (fd : FormData.t) :
  Key.assign k v2 (Key.assign k v1 fd) = Key.assign k v2 fd.
Proof. destruct k; reflexivity. Qed.

Lemma assign_assign_other (k1 k2 : Key.t) (v1 : Key.value k1)
    (v2 : Key.value k2) (fd : FormData.t) :
  k1 <> k2 ->
  Key.assign k2 v2 (Key.assign k1 v1 fd) = Key.assign k1 v1 (Key.assign k2 v2 fd).
Proof.
  destruct k1, k2; intros H; try reflexivity; contradiction H; reflexivity.
Qed.

Lemma assign_read (k : Key.t) (fd : FormData.t) :
  Key.assign k (Key.read k fd) fd = fd.
Proof. destruct k, fd; reflexivity. Qed.

Lemma run_two_input_changes (k1 k2 : Key.t) (v1 : Key.value k1)
    (v2 : Key.value k2) (w : World) :
  let fd := Key.assign k2 v2 (Key.assign k1 v1 (App.formData (app w))) in
  run (handleInputChange k1 v1 ;; handleInputChange k2 v2) w =
  (inr tt,
   evolve w (set_form fd (app w))
     [ SetFormData (Key.assign k1 v1 (App.formData (app w))); SetFormData fd ]).
Proof.
  intros fd. subst fd.
  rewrite (run_bind (handleInputChange k1 v1) (fun _ => handleInputChange k2 v2) w).
  rewrite (run_handleInputChange k1 v1 w). cbv beta iota.
  rewrite run_handleInputChange, evolve_evolve. reflexivity.
Qed.

(** X6: [handleInputChange] writes one key of the form and nothing
    else.  After [handleInputChange field value], the form cell holds
    [value] under [field] and its former content under every other key;
    the status and the busy flag are as before, no request has been
    issued, and the handler has completed normally. *)
Theorem input_change_writes_one_key (k : Key.t) (v : Key.value k) (w : World) :
  let w' := after (handleInputChange k v) w in
  Key.read k (App.formData (app w')) = v /\
  (forall k', k' <> k ->
     Key.read k' (App.formData (app w')) = Key.read k' (App.formData (app w))) /\
  App.status (app w') = App.status (app w) /\
  App.isProcessing (app w') = App.isProcessing (app w) /\
  issued (handleInputChange k v) w = [] /\
  outcome (handleInputChange k v) w = inr tt.
Proof.
  intros w'. subst w'.
  pose proof (run_handleInputChange k v w) as R.
  rewrite (issued_evolve (after_run R)), (after_run R), (outcome_run R).
  cbn [app evolve set_form App.formData App.status App.isProcessing requests_of].
  repeat split.
  - apply read_assign_same.
  - intros k' H. apply read_assign_other, H.
Qed.

(** X7: changes of two different fields commute: made in either order
    from the same world, they leave the same form, status and busy flag.
    The second change starts from the form the first one left, not from
    the form of the render. *)
Theorem input_changes_commute (k1 k2 : Key.t) (v1 : Key.value k1)
    (v2 : Key.value k2) (w : World) :
  k1 <> k2 ->
  app (after (handleInputChange k1 v1 ;; handleInputChange k2 v2) w) =
  app (after (handleInputChange k2 v2 ;; handleInputChange k1 v1) w) /\
  App.formData
    (app (after (handleInputChange k1 v1 ;; handleInputChange k2 v2) w)) =
  Key.assign k2 v2 (Key.assign k1 v1 (App.formData (app w))).
Proof.
  intros H.
  rewrite (after_run (run_two_input_changes k1 k2 v1 v2 w)).
  rewrite (after_run (run_two_input_changes k2 k1 v2 v1 w)).
  cbn [app evolve set_form App.formData].
  split; [|reflexivity].
  rewrite (assign_assign_other v1 v2 (App.formData (app w)) H). reflexivity.
Qed.

Lemma input_changes_commute_witness :
  let w := fresh backend_ok FormData.initial in
  app (after (handleInputChange Key.senderEmail "sender@example.com" ;;
              handleInputChange Key.outline true) w) =
  app (after (handleInputChange Key.outline true ;;
              handleInputChange Key.senderEmail "sender@example.com") w) /\
  App.formData
    (app (after (handleInputChange Key.senderEmail "sender@example.com" ;;
                 handleInputChange Key.outline true) w)) =
  Key.assign Key.outline true
    (Key.assign Key.senderEmail "sender@example.com" FormData.initial).
Proof.
  apply (@input_changes_commute Key.senderEmail Key.outline
           "sender@example.com" true (fresh backend_ok FormData.initial)).
  discriminate.
Defined.

(** X8: of two changes of the same field the later one wins, and a
    change that writes the value the field already has leaves the
    component state as it was. *)
Theorem input_change_last_wins (k : Key.t) (v1 v2 : Key.value k) (w : World) :
  app (after (handleInputChange k v1 ;; handleInputChange k v2) w) =
  app (after (handleInputChange k v2) w) /\
  app (after (handleInputChange k (Key.read k (App.formData (app w)))) w) =
  app w.
Proof.
  rewrite (after_run (run_two_input_changes k k v1 v2 w)).
  rewrite !(after_run (run_handleInputChange _ _ w)).
  cbn [app evolve set_form App.formData].
  rewrite assign_assign_same, assign_read.
  split; [reflexivity|]. destruct (app w); reflexivity.
Qed.

(** X9: [handleFileChange] is [handleInputChange] on the two file
    keys: for either file field and any file or [null], the two handlers
    do the same from every world. *)
Theorem file_change_is_input_change (file : option File) (w : World) :
  run (handleFileChange participants_field file) w =
    run (handleInputChange Key.participants file) w /\
  run (handleFileChange template_field file) w =
    run (handleInputChange Key.template file) w.
Proof. split; reflexivity. Qed.

(** X10: every key of the form is read by one stage only.  A change of
    a key that belongs to another stage does not change what a stage does:
    from the same world, the stage returns or throws the same and issues
    the same request.  In particular the password and the subject reach
    neither the upload nor the generate request. *)
Theorem stage_ignores_other_keys (st : Stage) (k : Key.t) (v : Key.value k)
    (fd : FormData.t) (w : World) :
  stage_of_key k <> st ->
  run (stage_handler st (Key.assign k v fd)) w = run (stage_handler st fd) w.
Proof.
  destruct st, k; intros H; try reflexivity; contradiction H; reflexivity.
Qed.

Lemma stage_ignores_other_keys_witness :
  run (stage_handler Upload
         (Key.assign Key.senderPassword "other" form_complete))
      (fresh backend_ok form_complete) =
  run (stage_handler Upload form_complete) (fresh backend_ok form_complete).
Proof.
  apply (@stage_ignores_other_keys Upload Key.senderPassword "other"
           form_complete (fresh backend_ok form_complete)).
  discriminate.
Defined.

(* ===================================================================== *)
(** ** The download *)
(* ===================================================================== *)

(** X11: when the archive request is answered with a 2xx response,
    [downloadCertificates] leaves the component state as it was (no
    status is set, not even a success status); it creates one object URL
    for the response data, adds a link to that URL with the file name
    "certificates.zip", clicks it, removes it, and revokes the object URL
    it created. *)
Theorem download_success_saves_archive (w : World) (response : Response) :
  server w (calls w) (download_request (API_BASE w)) = Replied response ->
  (200 <= code response < 300)%nat ->
  let u := ("blob:" ++ data response)%string in
  let link := mkLink u "certificates.zip" in
  app (after downloadCertificates w) = app w /\
  events downloadCertificates w =
    [ AxiosCall (download_request (API_BASE w));
      CreateObjectURL (data response);
      AppendChild link; Click link; Remove link;
      RevokeObjectURL u ].
Proof.
  intros Hr Hc u link.
  pose proof (run_downloadCertificates w) as R. cbv zeta in R.
  assert (S : settle (server w (calls w) (download_request (API_BASE w))) =
              inr response).
  { rewrite Hr. unfold settle, validateStatus.
    destruct (Nat.leb_spec 200 (code response)); [|lia].
    destruct (Nat.ltb_spec (code response) 300); [|lia]. reflexivity. }
  rewrite S in R.
  rewrite (events_evolve (after_run R)), (after_run R). split; reflexivity.
Qed.

Lemma download_success_saves_archive_witness :
  let w := fresh backend_ok form_complete in
  let link := mkLink "blob:ok" "certificates.zip" in
  app (after downloadCertificates w) = app w /\
  events downloadCertificates w =
    [ AxiosCall (download_request (API_BASE w));
      CreateObjectURL "ok";
      AppendChild link; Click link; Remove link;
      RevokeObjectURL "blob:ok" ].
Proof.
  apply (@download_success_saves_archive (fresh backend_ok form_complete)
           (mkResponse 200 "ok")); [reflexivity | cbn; lia].
Defined.

(** X12: from every world, [downloadCertificates] completes normally
    (a failure is never thrown to the caller), issues exactly one request,
    the GET of the archive with response type blob, and leaves the form as
    it was; the status is what it was when the request succeeded and error
    "Failed to download certificates" when it failed.  An object URL is
    created only after a successful request, and every object URL created
    is revoked. *)
Theorem download_always_settles (w : World) :
  let r := download_request (API_BASE w) in
  let w' := after downloadCertificates w in
  outcome downloadCertificates w = inr tt /\
  issued downloadCertificates w = [r] /\
  App.formData (app w') = App.formData (app w) /\
  App.status (app w') =
    (if accepted (server w) (calls w) r then App.status (app w)
     else Error "Failed to download certificates") /\
  (forall blob, In (CreateObjectURL blob) (events downloadCertificates w) ->
     accepted (server w) (calls w) r = true /\
     In (RevokeObjectURL ("blob:" ++ blob)%string)
        (events downloadCertificates w)).
Proof.
  intros r w'. subst r w'.
  pose proof (run_downloadCertificates w) as R. cbv zeta in R.
  unfold accepted.
  destruct (settle (server w (calls w) (download_request (API_BASE w))))
    as [e|response];
    rewrite (issued_evolve (after_run R)), (events_evolve (after_run R)),
      (after_run R), (outcome_run R);
    repeat split; cbn in H;
    repeat (destruct H as [H|H]; [try discriminate H|]); try contradiction H.
  injection H as <-. cbn. auto 10.
Qed.

(* ===================================================================== *)
(** ** From the form to the workflow *)
(* ===================================================================== *)

Lemma run_then {A B : Type} {m : M A} {w : World} {x w'} (k : M B) :
  run m w = (inr x, w') -> run (m ;; k) w = run k w'.
Proof. intros H. rewrite run_bind, H. reflexivity. Qed.

Lemma run_handleFileChange (field : FileField) (file : option File) (w : World) :
  let fd := match field with
            | participants_field =>
                Key.assign Key.participants file (App.formData (app w))
            | template_field =>
                Key.assign Key.template file (App.formData (app w))
            end in
  run (handleFileChange field file) w =
  (inr tt, evolve w (set_form fd (app w)) [SetFormData fd]).
Proof. destruct field; reflexivity. Qed.

Lemma run_fill (p t : File) (email : string) (w : World) :
  let f1 := Key.assign Key.participants (Some p) (App.formData (app w)) in
  let f2 := Key.assign Key.template (Some t) f1 in
  let fd := filled p t email (App.formData (app w)) in
  run (fill_and_start p t email) w =
  run click_start
    (evolve w (set_form fd (app w))
       [SetFormData f1; SetFormData f2; SetFormData fd]).
Proof.
  intros f1 f2 fd. unfold fill_and_start.
  rewrite (run_then _ (run_handleFileChange participants_field (Some p) w)).
  rewrite (run_then _ (run_handleFileChange template_field (Some t) _)),
    evolve_evolve.
  rewrite (run_then _ (run_handleInputChange Key.senderEmail email _)),
    evolve_evolve.
  reflexivity.
Qed.

(** X13: the form handlers, the start button and the workflow compose.
    From a component that is not busy, selecting the two files, typing a
    non-empty sender address and clicking the start button runs the
    workflow on the form with these three entries: if the backend accepts
    the three calls, the requests issued are the upload of the two selected
    files, the generate request and the send request with the typed
    address, the final status is the success status, and the form holds the
    three entries. *)
Theorem fill_and_start_succeeds (p t : File) (email : string) (w : World) :
  App.isProcessing (app w) = false ->
  email <> "" ->
  let fd := filled p t email (App.formData (app w)) in
  let up := upload_request (API_BASE w) p t (FormData.emailBody fd) in
  let gen := generate_request (API_BASE w) fd in
  let snd := send_request (API_BASE w) fd in
  accepted (server w) (calls w) up = true ->
  accepted (server w) (calls w ++ [up]) gen = true ->
  accepted (server w) (calls w ++ [up; gen]) snd = true ->
  let w' := after (fill_and_start p t email) w in
  issued (fill_and_start p t email) w = [up; gen; snd] /\
  App.status (app w') = Success "All operations completed successfully!" /\
  App.formData (app w') = fd /\
  FormData.senderEmail fd = email.
Proof.
  intros Hb He fd up gen snd Hu Hg Hse w'. subst w'.
  pose proof (run_fill p t email w) as R. cbv zeta in R. fold fd in R.
  set (d3 := [SetFormData (Key.assign Key.participants (Some p)
                             (App.formData (app w)));
              SetFormData (Key.assign Key.template (Some t)
                             (Key.assign Key.participants (Some p)
                                (App.formData (app w))));
              SetFormData fd]) in R.
  set (w3 := evolve w (set_form fd (app w)) d3) in R.
  assert (Hc : calls w3 = calls w).
  { subst w3. rewrite calls_evolve. cbn. apply app_nil_r. }
  assert (Hd : start_disabled (app w3) = false).
  { subst w3. unfold start_disabled. cbn. rewrite Hb.
    rewrite (truthy_string_true He). reflexivity. }
  rewrite (click_start_enabled w3 Hd) in R.
  assert (Hs : FormData.senderEmail (App.formData (app w3)) <> "")
    by exact He.
  assert (Hu3 : accepted (server w3) (calls w3)
                  (upload_request (API_BASE w3) p t
                     (FormData.emailBody (App.formData (app w3)))) = true)
    by (rewrite Hc; exact Hu).
  assert (Hg3 : accepted (server w3)
                  (calls w3 ++
                   [upload_request (API_BASE w3) p t
                      (FormData.emailBody (App.formData (app w3)))])
                  (generate_request (API_BASE w3) (App.formData (app w3))) = true)
    by (rewrite Hc; exact Hg).
  assert (Hse3 : accepted (server w3)
                   (calls w3 ++
                    [upload_request (API_BASE w3) p t
                       (FormData.emailBody (App.formData (app w3)));
                     generate_request (API_BASE w3) (App.formData (app w3))])
                   (send_request (API_BASE w3) (App.formData (app w3))) = true)
    by (rewrite Hc; exact Hse).
  rewrite (run_all_succeed (App.formData (app w3)) w3 (p:=p) (t:=t)
             eq_refl eq_refl Hs Hu3 Hg3 Hse3) in R.
  subst w3. rewrite evolve_evolve in R.
  rewrite (issued_evolve (after_run R)), (after_run R).
  repeat split.
Qed.

Lemma fill_and_start_succeeds_witness :
  let w := fresh backend_ok FormData.initial in
  let fd := filled roster artwork "sender@example.com" FormData.initial in
  issued (fill_and_start roster artwork "sender@example.com") w =
    [ upload_request (API_BASE w) roster artwork "";
      generate_request (API_BASE w) fd;
      send_request (API_BASE w) fd ] /\
  App.status
    (app (after (fill_and_start roster artwork "sender@example.com") w)) =
    Success "All operations completed successfully!" /\
  App.formData
    (app (after (fill_and_start roster artwork "sender@example.com") w)) = fd /\
  FormData.senderEmail fd = "sender@example.com".
Proof.
  apply (@fill_and_start_succeeds roster artwork "sender@example.com"
           (fresh backend_ok FormData.initial));
    solve [reflexivity | discriminate].
Defined.

(** Both runs of a scenario, from [w] and from [w] with another
    component state, are given by the same lemma. *)
Ltac same_scenario L1 L2 :=
  rewrite (events_evolve (after_run L1)), (events_evolve (after_run L2)),
    (after_run L1), (after_run L2);
  split; reflexivity.

(** X14: [handleStartProcess] keeps no memory of earlier runs and has
    no guard of its own: started from any status and any value of the busy
    flag (also while the flag is already true), it does the same as from
    the component state at hand: the same events in the same order, hence
    the same requests starting again with the first stage, and the same
    final status. *)
Theorem run_ignores_previous_state (fd : FormData.t) (w : World) (a : App.state) :
  events (handleStartProcess fd) (with_app a w) =
    events (handleStartProcess fd) w /\
  App.status (app (after (handleStartProcess fd) (with_app a w))) =
    App.status (app (after (handleStartProcess fd) w)).
Proof.
  set (wa := with_app a w).
  destruct (files_present fd) eqn:Hf.
  - destruct (files_present_inv fd Hf) as (p & t & Hp & Ht).
    set (up := upload_request (API_BASE w) p t (FormData.emailBody fd)).
    set (gen := generate_request (API_BASE w) fd).
    destruct (accepted (server w) (calls w) up) eqn:Hu;
      [ destruct (accepted (server w) (calls w ++ [up]) gen) eqn:Hg;
        [ destruct (string_dec (FormData.senderEmail fd) "") as [Hs|Hs];
          [ | destruct (accepted (server w) (calls w ++ [up; gen])
                          (send_request (API_BASE w) fd)) eqn:Hse ] | ] | ].
    + same_scenario (run_sender_missing fd wa Hp Ht Hs Hu Hg)
                    (run_sender_missing fd w Hp Ht Hs Hu Hg).
    + same_scenario (run_all_succeed fd wa Hp Ht Hs Hu Hg Hse)
                    (run_all_succeed fd w Hp Ht Hs Hu Hg Hse).
    + same_scenario (run_send_fails fd wa Hp Ht Hs Hu Hg Hse)
                    (run_send_fails fd w Hp Ht Hs Hu Hg Hse).
    + same_scenario (run_generate_fails fd wa Hp Ht Hu Hg)
                    (run_generate_fails fd w Hp Ht Hu Hg).
    + same_scenario (run_upload_fails fd wa Hp Ht Hu)
                    (run_upload_fails fd w Hp Ht Hu).
  - set (gen := generate_request (API_BASE w) fd).
    destruct (accepted (server w) (calls w) gen) eqn:Hg;
      [ destruct (string_dec (FormData.senderEmail fd) "") as [Hs|Hs];
        [ | destruct (accepted (server w) (calls w ++ [gen])
                        (send_request (API_BASE w) fd)) eqn:Hse ] | ].
    + same_scenario (run_missing_sender_missing fd wa Hf Hs Hg)
                    (run_missing_sender_missing fd w Hf Hs Hg).
    + same_scenario (run_missing_rest_succeeds fd wa Hf Hs Hg Hse)
                    (run_missing_rest_succeeds fd w Hf Hs Hg Hse).
    + same_scenario (run_missing_send_fails fd wa Hf Hs Hg Hse)
                    (run_missing_send_fails fd w Hf Hs Hg Hse).
    + same_scenario (run_missing_generate_fails fd wa Hf Hg)
                    (run_missing_generate_fails fd w Hf Hg).
Qed.
